(** * Composer: the MIDI utility module [src/utils/midi_utils.py]

    A shallow embedding of [load_midi_file], [get_midi_info],
    [validate_midi_file] and [filter_midi_by_instrument], and the
    properties of the summary dictionary, the validation thresholds and
    the instrument filter.

    Python integers are [Z], Python floats are the binary64 floats of
    [PrimFloat], dictionaries with string keys are [gmap string value],
    exceptions are the left summand of [result].  The two parsing
    libraries, the file system, [np.mean], integer true division and the
    formatting of floats are not code of this module: they are the fields
    of the class [Runtime]. *)

From Stdlib Require Import ZArith String List PrimFloat SpecFloat FloatOps.
From stdpp Require Import gmap strings list fin_maps pretty sorting.

#[local] Set Warnings "-register-all".
#[local] Open Scope string_scope.
#[local] Open Scope list_scope.
#[local] Open Scope Z_scope.

(** ** Exceptions and results *)

(** The classes of [Exception] this module raises itself or provokes in
    the interpreter and the file system; [OSError] is an [OSError] of
    another class than [FileNotFoundError]; [LibraryError] stands for any
    other subclass of [Exception] coming out of a parsing library.
    [InvalidReference] is not a Python exception: it marks a heap
    location that holds no object, which no Python program can produce. *)
Inductive exn_class : Type :=
  | FileNotFoundError
  | OSError
  | ValueError
  | ZeroDivisionError
  | OverflowError
  | KeyError
  | TypeError
  | AttributeError
  | LibraryError (class_name : string)
  | InvalidReference.

(** An exception: its class and [str(e)]. *)
Record exn : Type := Exn { exn_type : exn_class; exn_str : string }.

Definition result (A : Type) : Type := (exn + A)%type.

Definition ret {A} (a : A) : result A := inr a.
Definition raise {A} (c : exn_class) (msg : string) : result A := inl (Exn c msg).

Definition bind {A B} (r : result A) (k : A -> result B) : result B :=
  match r with
  | inl e => inl e
  | inr a => k a
  end.

Notation "x <- e ; k" := (bind e (fun x => k))
  (at level 20, e at level 100, k at level 200, only parsing).

(** [try: body except Exception as e: handler(e)]. *)
Definition try_except {A} (body : result A) (handler : exn -> result A) : result A :=
  match body with
  | inl e => handler e
  | inr a => ret a
  end.

(** ** Python values *)

Inductive value : Type :=
  | VInt (z : Z)
  | VFloat (f : float)
  | VBool (b : bool)
  | VStr (s : string)
  | VList (l : list value)
  | VDict (d : gmap string value).

Abbreviation dict := (gmap string value).

(** [d[k]] *)
Definition getitem (d : dict) (k : string) : result value :=
  match d !! k with
  | Some v => ret v
  | None => raise KeyError ("'" +:+ k +:+ "'")
  end.

(** [d[k].append(x)]: the list stored under [k] is extended in place. *)
Definition list_append (k : string) (x : value) (d : dict) : dict :=
  alter (fun v => match v with VList l => VList (l ++ [x]) | _ => v end) k d.

(** [len(l)] *)
Definition len {A} (l : list A) : Z := Z.of_nat (length l).

(** [sum(...)] over integers: starts at 0 and adds from the left. *)
Definition py_sum (l : list Z) : Z := fold_left Z.add l 0.

(** [min] and [max] of a sequence whose first element is [x]: the first
    extremal element is kept. *)
Definition py_min (x : Z) (l : list Z) : Z :=
  fold_left (fun m y => if y <? m then y else m) l x.

Definition py_max (x : Z) (l : list Z) : Z :=
  fold_left (fun m y => if m <? y then y else m) l x.

(** Truth value of a float: every float but the two zeros is true. *)
Definition float_truthy (f : float) : bool := negb (PrimFloat.eqb f 0%float).

(** [str] of an integer. *)
Definition str_int (z : Z) : string := pretty z.

(** ** The MIDI objects of the two backends *)

(** A note; [T] is the type of its times: ticks ([Z]) under miditoolkit,
    seconds ([float]) under pretty_midi. *)
Record Note (T : Type) : Type := {
  pitch : Z;
  start : T;
  end_ : T;
  velocity : Z
}.
Arguments pitch {T} _.
Arguments start {T} _.
Arguments end_ {T} _.
Arguments velocity {T} _.

Record Instrument (T : Type) : Type := {
  program : Z;
  is_drum : bool;
  name : string;
  notes : list (Note T)
}.
Arguments Build_Instrument {T} _ _ _ _.
Arguments program {T} _.
Arguments is_drum {T} _.
Arguments name {T} _.
Arguments notes {T} _.

Record TempoChange : Type := { tempo : float; tempo_time : Z }.
Record TimeSignature : Type := { numerator : Z; denominator : Z; ts_time : Z }.
Record KeySignature : Type := { key_name : string; ks_time : Z }.

(** [miditoolkit.MidiFile] *)
Record MidiFile : Type := {
  ticks_per_beat : Z;
  max_tick : Z;
  tempo_changes : list TempoChange;
  time_signature_changes : list TimeSignature;
  key_signature_changes : list KeySignature;
  instruments : list (Instrument Z)
}.

(** [pretty_midi.PrettyMIDI]: its instruments, and the times of its
    events outside the instruments (time signatures, key signatures,
    lyrics, texts), which the method [get_end_time] reads too. *)
Record PrettyMIDI : Type := {
  pm_instruments : list (Instrument float);
  pm_meta_times : list float
}.

(** What a caller may hand over in place of a path: an object of one of
    the two backends, or an object of another type, of which only
    [type(o).__name__] and [str(type(o))] matter. *)
Inductive pyobj : Type :=
  | MT (m : MidiFile)
  | PM (p : PrettyMIDI)
  | Foreign (type_name type_repr : string).

(** The argument of [get_midi_info] and [validate_midi_file]. *)
Inductive midi_source : Type :=
  | AtPath (file_path : string)
  | Given (o : pyobj).

(** ** Objects by reference *)

Definition loc : Type := positive.
Abbreviation heap := (gmap loc pyobj).

(** The argument of [filter_midi_by_instrument]: a path, or a reference
    to an object already loaded. *)
Inductive midi_handle : Type :=
  | PathArg (file_path : string)
  | ObjArg (l : loc).

(** A new object is stored at a location the heap does not use. *)
Definition new_object (o : pyobj) (h : heap) : loc * heap :=
  let l := fresh (dom h) in (l, <[l := o]> h).

(** ** What the module takes from its environment *)

Class Runtime : Type := {
  (** [Path(file_path).exists()]: [True], [False], or the [OSError] that
      the file system answers and the method does not swallow (a name
      that is too long, a directory that may not be searched) *)
  path_exists : string -> result bool;
  (** [str(Path(file_path))] *)
  path_str : string -> string;
  (** [miditoolkit.MidiFile(s)] *)
  miditoolkit_MidiFile : string -> result MidiFile;
  (** [pretty_midi.PrettyMIDI(s)] *)
  pretty_midi_PrettyMIDI : string -> result PrettyMIDI;
  (** [midi.get_end_time()] of a PrettyMIDI object, computed from the
      object at every call *)
  get_end_time : PrettyMIDI -> float;
  (** [np.mean] of a list of floats *)
  np_mean : list float -> float;
  (** [a / b] on integers, for a divisor that is not zero: the quotient,
      or the [OverflowError] of a quotient too large for a float *)
  int_truediv : Z -> Z -> result float;
  (** [f"{x:.1f}"] *)
  format_1f : float -> string;
  (** [f"{x}"] on a float *)
  str_float : float -> string
}.

(** [a / b] on integers. *)
Definition py_truediv `{Runtime} (a b : Z) : result float :=
  if b =? 0 then raise ZeroDivisionError "division by zero"
  else int_truediv a b.

Section MidiUtils.
Context `{RT : Runtime}.

(** *** [load_midi_file] (lines 12-40) *)

Definition load_midi_file (file_path : string) (backend : string) : result pyobj :=
  found <- path_exists file_path;
  if negb found then
    raise FileNotFoundError ("MIDI file not found: " +:+ path_str file_path)
  else if String.eqb backend "miditoolkit" then
    m <- miditoolkit_MidiFile (path_str file_path) ; ret (MT m)
  else if String.eqb backend "pretty_midi" then
    p <- pretty_midi_PrettyMIDI (path_str file_path) ; ret (PM p)
  else
    raise ValueError
      ("Unknown backend: " +:+ backend +:+ ". Use 'miditoolkit' or 'pretty_midi'").

(** *** [_get_info_miditoolkit] and [_get_info_pretty_midi] (lines 66-141) *)

(** The dictionary literal [inst_info] of the two loops. *)
Definition inst_info {T} (inst : Instrument T) : value :=
  VDict (<["num_notes" := VInt (len (notes inst))]>
        (<["name" := VStr (name inst)]>
        (<["is_drum" := VBool (is_drum inst)]>
        (<["program" := VInt (program inst)]> ∅)))).

(** [for inst in midi.instruments: info["instruments"].append(inst_info)] *)
Definition append_instruments {T} (insts : list (Instrument T)) (info : dict) : dict :=
  fold_left (fun info inst => list_append "instruments" (inst_info inst) info) insts info.

(** [sum(len(inst.notes) for inst in midi.instruments)] *)
Definition count_notes {T} (insts : list (Instrument T)) : Z :=
  py_sum (map (fun inst => len (notes inst)) insts).

(** [for inst in midi.instruments: all_notes.extend([note.pitch for note in inst.notes])] *)
Definition collect_pitches {T} (insts : list (Instrument T)) : list Z :=
  fold_left (fun all_notes inst => all_notes ++ map pitch (notes inst)) insts [].

(** The block [if midi.instruments: ... if all_notes: info["pitch_range"] = ...],
    the same in both functions. *)
Definition set_pitch_range {T} (insts : list (Instrument T)) (info : dict) : dict :=
  match insts with
  | [] => info
  | _ :: _ =>
      match collect_pitches insts with
      | [] => info
      | p :: ps =>
          <["pitch_range" :=
              VDict (<["span" := VInt (py_max p ps - py_min p ps)]>
                    (<["max" := VInt (py_max p ps)]>
                    (<["min" := VInt (py_min p ps)]> ∅)))]> info
      end
  end.

Definition _get_info_miditoolkit (midi : MidiFile) : result dict :=
  let info : dict :=
    <["instruments" := VList []]>
    (<["key_signature_changes" := VInt (len (key_signature_changes midi))]>
    (<["time_signature_changes" := VInt (len (time_signature_changes midi))]>
    (<["tempo_changes" := VInt (len (tempo_changes midi))]>
    (<["ticks_per_beat" := VInt (ticks_per_beat midi)]> ∅)))) in
  let info := append_instruments (instruments midi) info in
  let total_notes := count_notes (instruments midi) in
  let info := <["total_notes" := VInt total_notes]> info in
  let info := set_pitch_range (instruments midi) info in
  if negb (max_tick midi =? 0) then
    match tempo_changes midi with
    | _ :: _ =>
        let avg_tempo := np_mean (map tempo (tempo_changes midi)) in
        beats <- py_truediv (max_tick midi) (ticks_per_beat midi);
        let duration_seconds := PrimFloat.mul beats (PrimFloat.div 60%float avg_tempo) in
        ret (<["duration_ticks" := VInt (max_tick midi)]>
            (<["duration_seconds" := VFloat duration_seconds]> info))
    | [] => ret info
    end
  else ret info.

Definition _get_info_pretty_midi (midi : PrettyMIDI) : result dict :=
  let info : dict :=
    <["instruments" := VList []]>
    (<["duration_seconds" := VFloat (get_end_time midi)]> ∅) in
  let info := append_instruments (pm_instruments midi) info in
  let total_notes := count_notes (pm_instruments midi) in
  let info := <["total_notes" := VInt total_notes]> info in
  let info := set_pitch_range (pm_instruments midi) info in
  ret info.

(** *** [get_midi_info] (lines 43-63) *)

Definition get_midi_info (midi_file : midi_source) : result dict :=
  midi <- match midi_file with
          | AtPath file_path => load_midi_file file_path "miditoolkit"
          | Given o => ret o
          end;
  match midi with
  | MT m => _get_info_miditoolkit m
  | PM p => _get_info_pretty_midi p
  | Foreign _ type_repr => raise ValueError ("Unknown MIDI type: " +:+ type_repr)
  end.

(** *** [validate_midi_file] (lines 144-185) *)

(** [info["total_notes"] < min_notes].  [get_midi_info] stores an integer
    under this key ([get_midi_info_total_notes] below); the comparison of
    any other value is left as a [TypeError]. *)
Definition int_of (v : value) : result Z :=
  match v with
  | VInt z => ret z
  | _ => raise TypeError "'<' not supported between these instances"
  end.

(** [duration], the value under "duration_seconds", read as the float
    that [get_midi_info] stores there. *)
Definition float_of (v : value) : result float :=
  match v with
  | VFloat f => ret f
  | _ => raise TypeError "unsupported format string passed to __format__"
  end.

(** [bound and duration > bound] and [bound and duration < bound], for an
    optional float [bound]: [None] and the zeros are false. *)
Definition exceeds (bound : option float) (duration : float) : bool :=
  match bound with
  | Some b => float_truthy b && PrimFloat.ltb b duration
  | None => false
  end.

Definition falls_short (bound : option float) (duration : float) : bool :=
  match bound with
  | Some b => float_truthy b && PrimFloat.ltb duration b
  | None => false
  end.

(** [str(bound)] for a bound that passed the truth test. *)
Definition str_bound (bound : option float) : string :=
  match bound with
  | Some b => str_float b
  | None => "None"
  end.

(** [v == 0] *)
Definition eq_zero (v : value) : bool :=
  match v with
  | VInt z => z =? 0
  | VFloat f => PrimFloat.eqb f 0%float
  | VBool b => negb b
  | _ => false
  end.

Definition validate_midi_file (file_path : midi_source) (min_notes : Z)
    (max_duration min_duration : option float) (require_tempo : bool)
    : result (bool * string) :=
  try_except
    (info <- get_midi_info file_path;
     total_notes <- (v <- getitem info "total_notes"; int_of v);
     if total_notes <? min_notes then
       ret (false, "Too few notes: " +:+ str_int total_notes +:+ " < " +:+ str_int min_notes)
     else
       rejected <-
         match info !! "duration_seconds" with
         | Some v =>
             duration <- float_of v;
             if exceeds max_duration duration then
               ret (Some (false, "Duration too long: " +:+ format_1f duration +:+ "s > "
                                   +:+ str_bound max_duration +:+ "s"))
             else if falls_short min_duration duration then
               ret (Some (false, "Duration too short: " +:+ format_1f duration +:+ "s < "
                                   +:+ str_bound min_duration +:+ "s"))
             else ret None
         | None => ret None
         end;
       match rejected with
       | Some answer => ret answer
       | None =>
           if require_tempo && eq_zero (default (VInt 0) (info !! "tempo_changes")) then
             ret (false, "No tempo changes found")
           else ret (true, "Valid")
       end)
    (fun e => ret (false, "Error loading MIDI: " +:+ exn_str e)).

(** *** [filter_midi_by_instrument] (lines 188-221) *)

(** [x in l] on a list of integers. *)
Definition py_in (x : Z) (l : list Z) : bool := existsb (Z.eqb x) l.

(** The loop over [midi.instruments] that builds [filtered_instruments]. *)
Definition filter_instruments {T} (program_numbers : option (list Z))
    (exclude_drums : bool) (insts : list (Instrument T)) : list (Instrument T) :=
  fold_left
    (fun filtered_instruments inst =>
       if exclude_drums && is_drum inst then filtered_instruments
       else if match program_numbers with
               | None => true
               | Some l => py_in (program inst) l
               end
            then filtered_instruments ++ [inst]
            else filtered_instruments)
    insts [].

(** [midi.instruments = l] *)
Definition set_instruments (midi : MidiFile) (l : list (Instrument Z)) : MidiFile :=
  {| ticks_per_beat := ticks_per_beat midi;
     max_tick := max_tick midi;
     tempo_changes := tempo_changes midi;
     time_signature_changes := time_signature_changes midi;
     key_signature_changes := key_signature_changes midi;
     instruments := l |}.

Definition pm_set_instruments (midi : PrettyMIDI) (l : list (Instrument float)) : PrettyMIDI :=
  {| pm_instruments := l; pm_meta_times := pm_meta_times midi |}.

(** [filter_midi_by_instrument] assigns to an attribute of its argument,
    so here objects live in a heap and are passed by reference: the
    function takes the heap and returns the reference it hands back
    together with the heap it leaves.  A path is loaded into a new
    object.  An object of another type is taken to have no attribute
    [instruments]. *)
Definition filter_midi_by_instrument (midi_file : midi_handle)
    (program_numbers : option (list Z)) (exclude_drums : bool) (h : heap)
    : result (loc * heap) :=
  ref <- match midi_file with
         | PathArg file_path =>
             o <- load_midi_file file_path "miditoolkit";
             ret (new_object o h)
         | ObjArg l => ret (l, h)
         end;
  let '(midi, h) := ref in
  match h !! midi with
  | Some (MT m) =>
      let filtered_instruments :=
        filter_instruments program_numbers exclude_drums (instruments m) in
      ret (midi, <[midi := MT (set_instruments m filtered_instruments)]> h)
  | Some (PM p) =>
      let filtered_instruments :=
        filter_instruments program_numbers exclude_drums (pm_instruments p) in
      ret (midi, <[midi := PM (pm_set_instruments p filtered_instruments)]> h)
  | Some (Foreign type_name _) =>
      raise AttributeError
        ("'" +:+ type_name +:+ "' object has no attribute 'instruments'")
  | None => raise InvalidReference ""
  end.

(** [get_piano_midi] (lines 224-245): [list(range(8))] as program numbers. *)
Definition get_piano_midi (midi_file : midi_handle) (h : heap) : result (loc * heap) :=
  filter_midi_by_instrument midi_file (Some [0; 1; 2; 3; 4; 5; 6; 7]) true h.

(** *** [midi_to_note_sequence] (lines 248-272) *)

(** The dictionary appended for [note] of [inst]. *)
Definition note_dict (inst : Instrument Z) (note : Note Z) : value :=
  VDict (<["instrument" := VInt (program inst)]>
        (<["velocity" := VInt (velocity note)]>
        (<["end" := VInt (end_ note)]>
        (<["start" := VInt (start note)]>
        (<["pitch" := VInt (pitch note)]> ∅))))).

(** The two nested loops that fill the list [notes] of the source,
    here [sequence]. *)
Definition collect_notes (insts : list (Instrument Z)) : list value :=
  fold_left
    (fun sequence inst =>
       fold_left (fun sequence note => sequence ++ [note_dict inst note])
         (notes inst) sequence)
    insts [].

(** [x[k]] on a value. *)
Definition subscript (x : value) (k : string) : result value :=
  match x with
  | VDict d => getitem d k
  | _ => raise TypeError "object is not subscriptable"
  end.

(** [l.sort(key=...)]: the key of every element is computed first, in
    order; the elements are then sorted by [<] on their keys, and the
    sort is stable.  A stable sort has one result only, so the insertion
    sort below returns the list that Python's sort returns: an element is
    put in front of the sorted rest, behind the elements with a strictly
    smaller key. *)
Fixpoint keys_of (key : value -> result Z) (l : list value) : result (list (Z * value)) :=
  match l with
  | [] => ret []
  | x :: l' =>
      k <- key x;
      keyed <- keys_of key l';
      ret ((k, x) :: keyed)
  end.

Fixpoint insert_by_key (kx : Z * value) (sorted : list (Z * value)) : list (Z * value) :=
  match sorted with
  | [] => [kx]
  | ky :: rest =>
      if fst ky <? fst kx then ky :: insert_by_key kx rest
      else kx :: ky :: rest
  end.

Definition stable_sort (l : list (Z * value)) : list (Z * value) :=
  foldr insert_by_key [] l.

Definition list_sort (key : value -> result Z) (l : list value) : result (list value) :=
  keyed <- keys_of key l;
  ret (map snd (stable_sort keyed)).

Definition midi_to_note_sequence (midi : MidiFile) : result (list value) :=
  let sequence := collect_notes (instruments midi) in
  list_sort (fun x => v <- subscript x "start"; int_of v) sequence.

End MidiUtils.

(** ** [print_midi_summary] (lines 275-308) *)

(** What printing takes from its environment besides the [Runtime]. *)
Class Console : Type := {
  (** [Path(file_path).name] *)
  path_name : string -> string;
  (** [str(e)] for the [TypeError] that [Path(o)] raises on an object
      that is no path *)
  path_type_error : pyobj -> string;
  (** [f"{x:.2f}"] *)
  format_2f : float -> string;
  (** [str] of a list or a dictionary *)
  container_str : value -> string
}.

(** A computation that prints: it takes the lines printed so far and
    returns the lines printed after it, with its result or the exception
    that ended it.  A line is the argument of one call of [print]. *)
Definition console (A : Type) : Type := list string -> list string * result A.

Definition print (line : string) : console unit :=
  fun out => (out ++ [line], ret tt).

Definition lift {A} (r : result A) : console A := fun out => (out, r).

Definition skip : console unit := fun out => (out, ret tt).

Definition cbind {A B} (c : console A) (k : A -> console B) : console B :=
  fun out =>
    match c out with
    | (out', inr a) => k a out'
    | (out', inl e) => (out', inl e)
    end.

Notation "x <~ c ; k" := (cbind c (fun x => k))
  (at level 20, c at level 100, k at level 200, only parsing).

(** The line feed, and [s * n]. *)
Definition nl : string := String (Ascii.ascii_of_nat 10) "".

Fixpoint str_mul (s : string) (n : nat) : string :=
  match n with
  | O => ""
  | S n' => s +:+ str_mul s n'
  end.

(** Truth value of a value. *)
Definition truthy (v : value) : bool :=
  match v with
  | VInt z => negb (z =? 0)
  | VFloat f => float_truthy f
  | VBool b => b
  | VStr s => negb (String.eqb s "")
  | VList l => match l with [] => false | _ :: _ => true end
  | VDict d => negb (bool_decide (d = ∅))
  end.

(** [len(v)] and the iteration over [v]: [get_midi_info] stores a list
    under "instruments"; any other value is left as a [TypeError]. *)
Definition py_len (v : value) : result Z :=
  match v with
  | VList l => ret (len l)
  | _ => raise TypeError "object has no len()"
  end.

Definition py_iter (v : value) : result (list value) :=
  match v with
  | VList l => ret l
  | _ => raise TypeError "object is not iterable"
  end.

Section Printing.
Context `{RT : Runtime} `{CO : Console}.

(** [f"{v}"] *)
Definition py_str (v : value) : string :=
  match v with
  | VInt z => str_int z
  | VFloat f => str_float f
  | VBool b => if b then "True" else "False"
  | VStr s => s
  | VList _ | VDict _ => container_str v
  end.

(** The loop [for i, inst in enumerate(info["instruments"], 1)]. *)
Fixpoint print_instruments (i : Z) (insts : list value) : console unit :=
  match insts with
  | [] => skip
  | inst :: rest =>
      drum <~ lift (subscript inst "is_drum");
      let drum_str := if truthy drum then " [DRUM]" else "" in
      prog <~ lift (subscript inst "program");
      nm <~ lift (subscript inst "name");
      num <~ lift (subscript inst "num_notes");
      _ <~ print ("  " +:+ str_int i +:+ ". Program " +:+ py_str prog +:+ ": "
                   +:+ py_str nm +:+ drum_str +:+ " (" +:+ py_str num +:+ " notes)");
      print_instruments (i + 1) rest
  end.

Definition print_midi_summary (file_path : midi_source) : console unit :=
  info <~ lift (get_midi_info file_path);
  file_name <~ lift (match file_path with
                     | AtPath p => ret (path_name p)
                     | Given o => raise TypeError (path_type_error o)
                     end);
  _ <~ print (nl +:+ "MIDI File: " +:+ file_name);
  _ <~ print (str_mul "=" 60);
  _ <~ match info !! "duration_seconds" with
       | Some v =>
           duration <~ lift (float_of v);
           print ("Duration: " +:+ format_2f duration +:+ "s ("
                    +:+ format_2f (PrimFloat.div duration 60%float) +:+ " minutes)")
       | None => skip
       end;
  _ <~ match info !! "duration_ticks" with
       | Some ticks =>
           _ <~ print ("Total ticks: " +:+ py_str ticks);
           beat <~ lift (getitem info "ticks_per_beat");
           print ("Ticks per beat: " +:+ py_str beat)
       | None => skip
       end;
  total <~ lift (getitem info "total_notes");
  _ <~ print ("Total notes: " +:+ py_str total);
  _ <~ match info !! "pitch_range" with
       | Some pr =>
           lo <~ lift (subscript pr "min");
           hi <~ lift (subscript pr "max");
           span <~ lift (subscript pr "span");
           print ("Pitch range: " +:+ py_str lo +:+ " to " +:+ py_str hi
                    +:+ " (span: " +:+ py_str span +:+ ")")
       | None => skip
       end;
  _ <~ print ("Tempo changes: "
                +:+ py_str (default (VStr "N/A") (info !! "tempo_changes")));
  _ <~ print ("Time signature changes: "
                +:+ py_str (default (VStr "N/A") (info !! "time_signature_changes")));
  _ <~ print ("Key signature changes: "
                +:+ py_str (default (VStr "N/A") (info !! "key_signature_changes")));
  insts <~ lift (getitem info "instruments");
  count <~ lift (py_len insts);
  _ <~ print (nl +:+ "Instruments (" +:+ str_int count +:+ "):");
  entries <~ lift (py_iter insts);
  print_instruments 1 entries.

End Printing.

(** ** A sample environment

    One runtime and a few objects, on which the definitions above are
    evaluated.  Integers become floats, and quotients of integers become
    floats, by one rounding to the nearest float, ties to even; the mean
    is a sum from the left divided by the length; [format_1f] rounds the
    exact value of the float to one decimal, ties to even; [str_float]
    is the shortest decimal that reads back as the float, in the layout
    of [repr]. *)
Module Demo.

(** [float(z)] *)
Definition float_of_Z (z : Z) : float :=
  match z with
  | Z0 => 0%float
  | Zpos p => SF2Prim (binary_normalize prec emax (Zpos p) 0 false)
  | Zneg p => SF2Prim (binary_normalize prec emax (Zneg p) 0 true)
  end.

(** [a / b] on integers, [b] not zero: the quotient is rounded once. *)
Definition exact_float (z : Z) : spec_float :=
  match z with
  | Z0 => S754_zero false
  | Zpos p => S754_finite false p 0
  | Zneg p => S754_finite true p 0
  end.

Definition truediv (a b : Z) : result float :=
  match SFdiv prec emax (exact_float a) (exact_float b) with
  | S754_infinity _ => raise OverflowError "integer division result too large for a float"
  | q => ret (SF2Prim q)
  end.

Definition mean (l : list float) : float :=
  PrimFloat.div (fold_left PrimFloat.add l 0%float) (float_of_Z (len l)).

(** The integer nearest to [num / den], ties to even, for [den > 0]. *)
Definition round_half_even (num den : Z) : Z :=
  let q := num / den in
  let r := num mod den in
  match (2 * r ?= den) with
  | Lt => q
  | Gt => q + 1
  | Eq => if Z.even q then q else q + 1
  end.

Definition tenths_string (negative : bool) (tenths : Z) : string :=
  (if negative then "-" else "") +:+ pretty (tenths / 10) +:+ "." +:+ pretty (tenths mod 10).

Definition one_decimal (f : float) : string :=
  match Prim2SF f with
  | S754_zero s => tenths_string s 0
  | S754_infinity s => if s then "-inf" else "inf"
  | S754_nan => "nan"
  | S754_finite s m e =>
      tenths_string s
        (if 0 <=? e then 10 * Zpos m * 2 ^ e
         else round_half_even (10 * Zpos m) (2 ^ (- e)))
  end.

(** [c * 10^s] compared with [x * 2^t]. *)
Definition compare_scaled (c s x t : Z) : comparison :=
  (c * 10 ^ Z.max s 0 * 2 ^ Z.max (- t) 0 ?= x * 2 ^ Z.max t 0 * 10 ^ Z.max (- s) 0).

(** The largest [c] with [c * 10^s <= x * 2^t]. *)
Definition floor_scaled (s x t : Z) : Z :=
  (x * 2 ^ Z.max t 0 * 10 ^ Z.max (- s) 0) / (10 ^ Z.max s 0 * 2 ^ Z.max (- t) 0).

(** The least [k] from [k0] on with [x * 2^t < 10^k]. *)
Fixpoint decimal_point (fuel : nat) (k0 x t : Z) : Z :=
  match fuel with
  | O => k0
  | S fuel' =>
      match compare_scaled 1 k0 x t with
      | Gt => k0
      | _ => decimal_point fuel' (k0 + 1) x t
      end
  end.

(** The decimal [c * 10^s] of [n] digits that reads back as the float
    [m * 2^e], if there is one: of the two decimals of [n] digits around
    the float, the nearer one that lies between the middles to the
    neighbouring floats (a middle counts when [m] is even). *)
Definition candidate (m : positive) (e : Z) (decpt : Z) (n : Z) : option (Z * Z) :=
  let t := e - 2 in
  let v := 4 * Zpos m in
  let upper := v + 2 in
  let lower := if (Zpos m =? 2 ^ 52) && (-1074 <? e) then v - 1 else v - 2 in
  let s := decpt - n in
  let c_lo := floor_scaled s v t in
  let c_hi := c_lo + 1 in
  let reads_back c :=
    match compare_scaled c s lower t, compare_scaled c s upper t with
    | Gt, Lt => true
    | Eq, Lt | Gt, Eq => Z.even (Zpos m)
    | _, _ => false
    end in
  match reads_back c_lo, reads_back c_hi with
  | true, true =>
      match compare_scaled (2 * c_lo + 1) s (2 * v) t with
      | Gt => Some (c_lo, s)
      | Lt => Some (c_hi, s)
      | Eq => Some (if Z.even c_lo then c_lo else c_hi, s)
      end
  | true, false => Some (c_lo, s)
  | false, true => Some (c_hi, s)
  | false, false => None
  end.

(** The first number of digits, from [n] on, that has such a decimal. *)
Fixpoint shortest_digits (fuel : nat) (m : positive) (e decpt n : Z) : Z * Z :=
  match fuel with
  | O => (floor_scaled (decpt - n) (4 * Zpos m) (e - 2), decpt - n)
  | S fuel' =>
      match candidate m e decpt n with
      | Some cs => cs
      | None => shortest_digits fuel' m e decpt (n + 1)
      end
  end.

Fixpoint strip_zeros (fuel : nat) (c s : Z) : Z * Z :=
  match fuel with
  | O => (c, s)
  | S fuel' => if c mod 10 =? 0 then strip_zeros fuel' (c / 10) (s + 1) else (c, s)
  end.

(** [repr] of the float [m * 2^e]: exponent notation when the decimal
    point would stand more than sixteen places right or more than three
    places left of the first digit. *)
Definition repr_finite (negative : bool) (m : positive) (e : Z) : string :=
  let bits := Z.log2 (Zpos m) + 1 + e in
  let decpt0 := decimal_point 8 ((bits - 1) * 30103 / 100000 - 2) (4 * Zpos m) (e - 2) in
  let '(c0, s0) := shortest_digits 17 m e decpt0 1 in
  let '(c, s) := strip_zeros 20 c0 s0 in
  let digits : string := pretty c in
  let nd := Z.of_nat (String.length digits) in
  let decpt := nd + s in
  (if negative then "-" else "") +:+
  (if (decpt <=? -4) || (16 <? decpt) then
     let exponent := decpt - 1 in
     String.substring 0 1 digits
     +:+ (if nd =? 1 then ""
          else "." +:+ String.substring 1 (String.length digits - 1) digits)
     +:+ "e" +:+ (if exponent <? 0 then "-" else "+")
     +:+ (if Z.abs exponent <? 10 then "0" else "") +:+ pretty (Z.abs exponent)
   else if decpt <=? 0 then
     "0." +:+ str_mul "0" (Z.to_nat (- decpt)) +:+ digits
   else if nd <=? decpt then
     digits +:+ str_mul "0" (Z.to_nat (decpt - nd)) +:+ ".0"
   else
     String.substring 0 (Z.to_nat decpt) digits +:+ "."
     +:+ String.substring (Z.to_nat decpt) (String.length digits - Z.to_nat decpt) digits).

Definition shortest (f : float) : string :=
  match Prim2SF f with
  | S754_zero s => if s then "-0.0" else "0.0"
  | S754_infinity s => if s then "-inf" else "inf"
  | S754_nan => "nan"
  | S754_finite s m e => repr_finite s m e
  end.

Definition note (p : Z) : Note Z :=
  {| pitch := p; start := 0; end_ := 480; velocity := 64 |}.

Definition piano : Instrument Z :=
  {| program := 0; is_drum := false; name := "Piano";
     notes := map note [60; 64; 67; 72; 55; 59; 62; 65; 48; 52; 84; 36] |}.

Definition drums : Instrument Z :=
  {| program := 0; is_drum := true; name := "Drums"; notes := map note [36; 38; 42] |}.

Definition violin : Instrument Z :=
  {| program := 40; is_drum := false; name := "Violin"; notes := map note [76; 79] |}.

(** Two beats at 120 beats per minute: one second. *)
Definition song : MidiFile :=
  {| ticks_per_beat := 480;
     max_tick := 960;
     tempo_changes := [ {| tempo := 120%float; tempo_time := 0 |} ];
     time_signature_changes := [ {| numerator := 4; denominator := 4; ts_time := 0 |} ];
     key_signature_changes := [];
     instruments := [piano; drums; violin] |}.

(** The same notes in an object built in memory, without a tempo event. *)
Definition untimed : MidiFile :=
  {| ticks_per_beat := 480;
     max_tick := 960;
     tempo_changes := [];
     time_signature_changes := [];
     key_signature_changes := [];
     instruments := [piano; drums; violin] |}.




(** Ticks and a tempo event, and a header with zero ticks per beat. *)
Definition stalled : MidiFile :=
  {| ticks_per_beat := 0;
     max_tick := 960;
     tempo_changes := [ {| tempo := 120%float; tempo_time := 0 |} ];
     time_signature_changes := [];
     key_signature_changes := [];
     instruments := [violin] |}.

(** The two notes of [sketch] as a file: the parser supplies the tempo
    of 120 beats per minute and counts one tick past the last event. *)
Definition jotted : MidiFile :=
  {| ticks_per_beat := 480;
     max_tick := 481;
     tempo_changes := [ {| tempo := 120%float; tempo_time := 0 |} ];
     time_signature_changes := [];
     key_signature_changes := [];
     instruments := [violin] |}.

Definition played : PrettyMIDI :=
  {| pm_instruments :=
       [ {| program := 0; is_drum := false; name := "Piano";
            notes := [ {| pitch := 60; start := 0%float; end_ := 0.5%float; velocity := 90 |};
                       {| pitch := 57; start := 0.5%float; end_ := 1.5%float; velocity := 80 |} ] |} ];
     pm_meta_times := [] |}.

(** [max] of a list of floats, and 0.0 for the empty list. *)
Definition latest (times : list float) : float :=
  match times with
  | [] => 0%float
  | t :: rest => fold_left (fun m y => if PrimFloat.ltb m y then y else m) rest t
  end.

(** The end of the last note of each instrument and the times of the
    other events: the latest of them. *)
Definition end_time (midi : PrettyMIDI) : float :=
  latest (map (fun inst => latest (map end_ (notes inst))) (pm_instruments midi)
          ++ pm_meta_times midi).

(** The files of the sample file system; [broken.mid] exists and does
    not parse. *)
Definition files : gmap string (result MidiFile) :=
  <["song.mid" := ret song]>
  (<["sketch.mid" := ret jotted]>
  (<["broken.mid" := raise OSError "MThd not found. Probably not a MIDI file"]> ∅)).


(** The existence test: no file has a name of more than 255 characters,
    and the test of such a name ends in an [OSError]. *)
Definition exists_file (p : string) : result bool :=
  if (255 <? Z.of_nat (String.length p))%Z then
    raise OSError ("[Errno 36] File name too long: '" +:+ p +:+ "'")
  else ret (bool_decide (is_Some (files !! p))).

Definition runtime : Runtime :=
  {| path_exists := exists_file;
     path_str := fun p => p;
     miditoolkit_MidiFile := fun p =>
       default (raise FileNotFoundError p) (files !! p);
     pretty_midi_PrettyMIDI := fun p =>
       match files !! p with
       | Some _ => ret played
       | None => raise FileNotFoundError p
       end;
     get_end_time := end_time;
     np_mean := mean;
     int_truediv := truediv;
     format_1f := one_decimal;
     str_float := shortest |}.

(** Two instruments whose notes are not in the order of their starts. *)
Definition duet : MidiFile :=
  {| ticks_per_beat := 480;
     max_tick := 960;
     tempo_changes := [];
     time_signature_changes := [];
     key_signature_changes := [];
     instruments :=
       [ {| program := 40; is_drum := false; name := "Violin";
            notes := [ {| pitch := 76; start := 480; end_ := 960; velocity := 70 |};
                       {| pitch := 79; start := 0; end_ := 480; velocity := 70 |} ] |};
         {| program := 0; is_drum := false; name := "Piano";
            notes := [ {| pitch := 60; start := 240; end_ := 480; velocity := 80 |};
                       {| pitch := 48; start := 0; end_ := 240; velocity := 80 |} ] |} ] |}.

(** Two decimals, as [one_decimal] gives one. *)
Definition hundredths_string (negative : bool) (hundredths : Z) : string :=
  (if negative then "-" else "") +:+ pretty (hundredths / 100) +:+ "."
  +:+ pretty (hundredths mod 100 / 10) +:+ pretty (hundredths mod 10).

Definition two_decimals (f : float) : string :=
  match Prim2SF f with
  | S754_zero s => hundredths_string s 0
  | S754_infinity s => if s then "-inf" else "inf"
  | S754_nan => "nan"
  | S754_finite s m e =>
      hundredths_string s
        (if 0 <=? e then 100 * Zpos m * 2 ^ e
         else round_half_even (100 * Zpos m) (2 ^ (- e)))
  end.

(** The sample console: the sample paths have no directory part. *)
Definition terminal : Console :=
  {| path_name := fun p => p;
     path_type_error := fun _ => "expected str, bytes or os.PathLike object";
     format_2f := two_decimals;
     container_str := fun _ => "[...]" |}.

(** A heap with [song] at location 1 and [played] at location 2. *)
Definition studio : heap := <[2%positive := PM played]> (<[1%positive := MT song]> ∅).

End Demo.

(** ** The vocabulary of the specification *)

(** The sum of a list of integers. *)
Definition sum_of (l : list Z) : Z := foldr Z.add 0 l.

(** The [num_notes] field of an entry of the instruments list. *)
Definition num_notes_field (entry : value) : Z :=
  match entry with
  | VDict d => match d !! "num_notes" with Some (VInt n) => n | _ => 0 end
  | _ => 0
  end.

(** [entry] is the metadata of [inst]: program number, drum flag, name
    and note count. *)
Definition describes {T} (inst : Instrument T) (entry : value) : Prop :=
  exists d, entry = VDict d
    /\ d !! "program" = Some (VInt (program inst))
    /\ d !! "is_drum" = Some (VBool (is_drum inst))
    /\ d !! "name" = Some (VStr (name inst))
    /\ d !! "num_notes" = Some (VInt (len (notes inst))).

(** The instruments list of [info] has one entry per instrument of
    [insts], in the same order, and [total_notes] is the sum of the
    [num_notes] fields of that list. *)
Definition summarises {T} (insts : list (Instrument T)) (info : dict) : Prop :=
  exists entries,
    info !! "instruments" = Some (VList entries)
    /\ Forall2 describes insts entries
    /\ info !! "total_notes" = Some (VInt (sum_of (map num_notes_field entries))).

(** [p] is the pitch of a note of an instrument of [insts]. *)
Definition has_pitch {T} (insts : list (Instrument T)) (p : Z) : Prop :=
  exists inst note, inst ∈ insts /\ note ∈ notes inst /\ pitch note = p.

(** The dictionary [{"min": lo, "max": hi, "span": hi - lo}]. *)
Definition range_dict (lo hi : Z) : value :=
  VDict (<["span" := VInt (hi - lo)]> (<["max" := VInt hi]> (<["min" := VInt lo]> ∅))).

(** The pitch range recorded in [info] is the one of [insts]: from the
    lowest to the highest pitch when there is a note, absent when there
    is none. *)
Definition records_pitch_range {T} (insts : list (Instrument T)) (info : dict) : Prop :=
  ((exists p, has_pitch insts p) ->
     exists lo hi,
       info !! "pitch_range" = Some (range_dict lo hi)
       /\ has_pitch insts lo /\ has_pitch insts hi
       /\ (forall p, has_pitch insts p -> lo <= p <= hi)
       /\ lo <= hi /\ 0 <= hi - lo)
  /\ ((forall p, ~ has_pitch insts p) -> info !! "pitch_range" = None).

(** The part of the summary that the two backends share: the loop over
    the instruments, the note count and the pitch block, applied to the
    dictionary each function starts from. *)
Definition summary_of {T} (insts : list (Instrument T)) (info : dict) : dict :=
  set_pitch_range insts
    (<["total_notes" := VInt (count_notes insts)]> (append_instruments insts info)).

(** An instrument the filter is asked to keep: not a drum track when
    drums are excluded, and of a listed program when programs are listed. *)
Definition kept {T} (program_numbers : option (list Z)) (exclude_drums : bool)
    (inst : Instrument T) : bool :=
  (if exclude_drums then negb (is_drum inst) else true)
  && match program_numbers with
     | Some ps => bool_decide (program inst ∈ ps)
     | None => true
     end.

(** The object a source stands for: the one given, or the one
    miditoolkit parses from the path. *)
Definition denotes `{Runtime} (src : midi_source) (o : pyobj) : Prop :=
  match src with
  | AtPath file_path => load_midi_file file_path "miditoolkit" = inr o
  | Given o' => o' = o
  end.

(** The MidiFile a handle stands for in a heap. *)
Definition holds `{Runtime} (h : heap) (hd : midi_handle) (m : MidiFile) : Prop :=
  match hd with
  | PathArg file_path => load_midi_file file_path "miditoolkit" = inr (MT m)
  | ObjArg l => h !! l = Some (MT m)
  end.

(** All notes of all instruments as the dictionaries of
    [midi_to_note_sequence], instrument after instrument and note after
    note. *)
Definition all_note_dicts (insts : list (Instrument Z)) : list value :=
  concat (map (fun inst => map (note_dict inst) (notes inst)) insts).

(** The [start] field of an entry of a note sequence. *)
Definition start_field (entry : value) : Z :=
  match entry with
  | VDict d => match d !! "start" with Some (VInt z) => z | _ => 0 end
  | _ => 0
  end.

(** A duration beyond a maximum that is given and not zero, and a
    duration below a minimum that is given and not zero, in the order of
    the floats. *)
Definition too_long (max_duration : option float) (duration : float) : Prop :=
  exists bound,
    max_duration = Some bound
    /\ PrimFloat.eqb bound 0%float = false
    /\ PrimFloat.ltb bound duration = true.

Definition too_short (min_duration : option float) (duration : float) : Prop :=
  exists bound,
    min_duration = Some bound
    /\ PrimFloat.eqb bound 0%float = false
    /\ PrimFloat.ltb duration bound = true.


(** ** Python helpers *)

Lemma bind_inr {A B} (r : result A) (k : A -> result B) (b : B) :
  bind r k = inr b -> exists a, r = inr a /\ k a = inr b.
Proof. destruct r as [e|a]; simpl; [discriminate | eauto]. Qed.

Lemma py_sum_from (l : list Z) (a : Z) : fold_left Z.add l a = a + sum_of l.
Proof.
  revert a; induction l as [|x l IH]; intros a; simpl; [lia |].
  rewrite IH. lia.
Qed.

Lemma py_sum_sum_of (l : list Z) : py_sum l = sum_of l.
Proof. unfold py_sum. rewrite py_sum_from. lia. Qed.

Lemma py_min_le_start (x : Z) (l : list Z) : py_min x l <= x.
Proof.
  unfold py_min. revert x; induction l as [|y l IH]; intros x; simpl; [lia |].
  destruct (Z.ltb_spec y x); [specialize (IH y); lia | apply IH].
Qed.

Lemma py_min_lower (x : Z) (l : list Z) (p : Z) : p ∈ x :: l -> py_min x l <= p.
Proof.
  unfold py_min. revert x; induction l as [|y l IH]; intros x Hp; simpl.
  - apply list_elem_of_singleton in Hp. lia.
  - set (x' := if y <? x then y else x).
    assert (x' <= x /\ x' <= y) by (unfold x'; destruct (Z.ltb_spec y x); lia).
    pose proof (py_min_le_start x' l) as Hle. unfold py_min in Hle.
    apply elem_of_cons in Hp as [Hp | Hp]; [lia |].
    apply elem_of_cons in Hp as [Hp | Hp]; [lia |].
    apply IH. by apply elem_of_cons; right.
Qed.

Lemma py_min_elem (x : Z) (l : list Z) : py_min x l ∈ x :: l.
Proof.
  unfold py_min. revert x; induction l as [|y l IH]; intros x; simpl; [by left |].
  specialize (IH (if y <? x then y else x)).
  destruct (y <? x); simpl in *; repeat rewrite elem_of_cons in *; tauto.
Qed.

Lemma py_max_ge_start (x : Z) (l : list Z) : x <= py_max x l.
Proof.
  unfold py_max. revert x; induction l as [|y l IH]; intros x; simpl; [lia |].
  destruct (Z.ltb_spec x y); [specialize (IH y); lia | apply IH].
Qed.

Lemma py_max_upper (x : Z) (l : list Z) (p : Z) : p ∈ x :: l -> p <= py_max x l.
Proof.
  unfold py_max. revert x; induction l as [|y l IH]; intros x Hp; simpl.
  - apply list_elem_of_singleton in Hp. lia.
  - set (x' := if x <? y then y else x).
    assert (x <= x' /\ y <= x') by (unfold x'; destruct (Z.ltb_spec x y); lia).
    pose proof (py_max_ge_start x' l) as Hle. unfold py_max in Hle.
    apply elem_of_cons in Hp as [Hp | Hp]; [lia |].
    apply elem_of_cons in Hp as [Hp | Hp]; [lia |].
    apply IH. by apply elem_of_cons; right.
Qed.

Lemma py_max_elem (x : Z) (l : list Z) : py_max x l ∈ x :: l.
Proof.
  unfold py_max. revert x; induction l as [|y l IH]; intros x; simpl; [by left |].
  specialize (IH (if x <? y then y else x)).
  destruct (x <? y); simpl in *; repeat rewrite elem_of_cons in *; tauto.
Qed.

(** ** The summary dictionary *)

Section Summary.
Context {T : Type}.
Implicit Types (insts : list (Instrument T)) (info : dict).

Lemma lookup_list_append_ne (k k' : string) (x : value) info :
  k <> k' -> list_append k x info !! k' = info !! k'.
Proof. intros Hne. unfold list_append. by rewrite lookup_alter_ne. Qed.

Lemma lookup_list_append_eq (k : string) (x : value) info (l : list value) :
  info !! k = Some (VList l) -> list_append k x info !! k = Some (VList (l ++ [x])).
Proof. intros Hk. unfold list_append. by rewrite lookup_alter_eq, Hk. Qed.

Lemma lookup_append_instruments_ne insts info (k : string) :
  k <> "instruments" -> append_instruments insts info !! k = info !! k.
Proof.
  intros Hne. unfold append_instruments.
  revert info; induction insts as [|inst insts IH]; intros info; simpl; [done |].
  rewrite IH. by apply lookup_list_append_ne.
Qed.

Lemma lookup_append_instruments_eq insts info (l : list value) :
  info !! "instruments" = Some (VList l) ->
  append_instruments insts info !! "instruments"
  = Some (VList (l ++ map inst_info insts)).
Proof.
  unfold append_instruments.
  revert info l; induction insts as [|inst insts IH]; intros info l Hl; simpl.
  - by rewrite app_nil_r.
  - erewrite IH by (by apply lookup_list_append_eq).
    by rewrite <- app_assoc.
Qed.

Lemma describes_inst_info (inst : Instrument T) : describes inst (inst_info inst).
Proof. eexists. repeat split; by simplify_map_eq. Qed.

Lemma num_notes_field_inst_info (inst : Instrument T) :
  num_notes_field (inst_info inst) = len (notes inst).
Proof. unfold num_notes_field, inst_info. by simplify_map_eq. Qed.

Lemma count_notes_sum_of insts :
  count_notes insts = sum_of (map num_notes_field (map inst_info insts)).
Proof.
  unfold count_notes. rewrite py_sum_sum_of, map_map. f_equal.
Qed.

Lemma collect_pitches_from insts (acc : list Z) :
  fold_left (fun all_notes inst => all_notes ++ map pitch (notes inst)) insts acc
  = acc ++ concat (map (fun inst => map pitch (notes inst)) insts).
Proof.
  revert acc; induction insts as [|inst insts IH]; intros acc; simpl.
  - by rewrite app_nil_r.
  - by rewrite IH, app_assoc.
Qed.

Lemma elem_of_collect_pitches insts (p : Z) :
  p ∈ collect_pitches insts <-> has_pitch insts p.
Proof.
  unfold collect_pitches, has_pitch. rewrite collect_pitches_from. simpl.
  induction insts as [|inst insts IH]; simpl.
  - split; [by intros ?%elem_of_nil | by intros (? & ? & ?%elem_of_nil & _)].
  - rewrite elem_of_app, IH, list_elem_of_fmap. split.
    + intros [(note & -> & Hnote) | (inst' & note & Hin & Hnote & Hp)].
      * exists inst, note. repeat split; [by left | done].
      * exists inst', note. repeat split; [by right | done | done].
    + intros (inst' & note & Hin & Hnote & Hp).
      apply elem_of_cons in Hin as [-> | Hin]; [left; eauto | right; eauto 6].
Qed.

Lemma lookup_set_pitch_range_ne insts info (k : string) :
  k <> "pitch_range" -> set_pitch_range insts info !! k = info !! k.
Proof.
  intros Hne. unfold set_pitch_range.
  destruct insts; [done |]. destruct (collect_pitches _); [done |].
  by rewrite lookup_insert_ne.
Qed.

Lemma set_pitch_range_records insts info :
  info !! "pitch_range" = None ->
  records_pitch_range insts (set_pitch_range insts info).
Proof.
  intros Hnone. unfold set_pitch_range, records_pitch_range.
  destruct insts as [|inst insts].
  - split; [| done]. intros (p & inst & note & []%elem_of_nil & _).
  - destruct (collect_pitches (inst :: insts)) as [|p ps] eqn:Hall.
    + split; [| done]. intros (p & Hp%elem_of_collect_pitches).
      rewrite Hall in Hp. by apply elem_of_nil in Hp.
    + split.
      * intros _. exists (py_min p ps), (py_max p ps).
        rewrite lookup_insert_eq.
        pose proof (py_min_elem p ps) as Hlo. pose proof (py_max_elem p ps) as Hhi.
        pose proof (py_min_lower p ps _ Hhi) as Hle.
        rewrite <- Hall in Hlo, Hhi.
        apply elem_of_collect_pitches in Hlo, Hhi.
        repeat split; try done; try lia.
        -- apply py_min_lower. rewrite <- Hall. by apply elem_of_collect_pitches.
        -- apply py_max_upper. rewrite <- Hall. by apply elem_of_collect_pitches.
      * intros Hno. exfalso. apply (Hno p), elem_of_collect_pitches.
        rewrite Hall. by left.
Qed.

Lemma summary_of_summarises insts info :
  info !! "instruments" = Some (VList []) ->
  summarises insts (summary_of insts info).
Proof.
  intros Hinit. exists (map inst_info insts). unfold summary_of. repeat split.
  - rewrite lookup_set_pitch_range_ne, lookup_insert_ne by done.
    by rewrite (lookup_append_instruments_eq _ _ []).
  - induction insts; constructor; [apply describes_inst_info | done].
  - rewrite lookup_set_pitch_range_ne, lookup_insert_eq by done.
    by rewrite count_notes_sum_of.
Qed.

Lemma summary_of_records insts info :
  info !! "pitch_range" = None ->
  records_pitch_range insts (summary_of insts info).
Proof.
  intros Hnone. apply set_pitch_range_records.
  rewrite lookup_insert_ne by done.
  by rewrite lookup_append_instruments_ne.
Qed.

Lemma lookup_summary_of_other insts info (k : string) :
  k <> "instruments" -> k <> "total_notes" -> k <> "pitch_range" ->
  summary_of insts info !! k = info !! k.
Proof.
  intros. unfold summary_of.
  rewrite lookup_set_pitch_range_ne, lookup_insert_ne by done.
  by apply lookup_append_instruments_ne.
Qed.

Lemma lookup_summary_of_total_notes insts info :
  summary_of insts info !! "total_notes" = Some (VInt (count_notes insts)).
Proof.
  unfold summary_of. rewrite lookup_set_pitch_range_ne by done.
  apply lookup_insert_eq.
Qed.

Lemma summarises_insert insts info (k : string) (v : value) :
  k <> "instruments" -> k <> "total_notes" ->
  summarises insts info -> summarises insts (<[k := v]> info).
Proof.
  intros ? ? (entries & ? & ? & ?). exists entries.
  by rewrite !lookup_insert_ne.
Qed.

Lemma records_pitch_range_insert insts info (k : string) (v : value) :
  k <> "pitch_range" ->
  records_pitch_range insts info -> records_pitch_range insts (<[k := v]> info).
Proof.
  intros ? [Hsome Hnone]. unfold records_pitch_range.
  by rewrite lookup_insert_ne.
Qed.

End Summary.

(** ** [get_midi_info] *)

Section Info.
Context `{RT : Runtime}.

(** Names the shared part of the summary inside an unfolded
    [_get_info_miditoolkit] or [_get_info_pretty_midi]. *)
Ltac name_summary :=
  cbv zeta;
  repeat match goal with
  | |- context [set_pitch_range ?insts (<["total_notes" := _]> (append_instruments ?insts ?lit))] =>
      change (set_pitch_range insts (<["total_notes" := _]> (append_instruments insts lit)))
        with (summary_of insts lit)
  end.

Lemma get_midi_info_denotes (src : midi_source) (o : pyobj) :
  denotes src o ->
  get_midi_info src
  = match o with
    | MT m => _get_info_miditoolkit m
    | PM p => _get_info_pretty_midi p
    | Foreign _ type_repr => raise ValueError ("Unknown MIDI type: " +:+ type_repr)
    end.
Proof.
  unfold denotes, get_midi_info. destruct src as [file_path | o'].
  - by intros ->.
  - by intros ->.
Qed.

Lemma get_midi_info_inr (src : midi_source) (info : dict) :
  get_midi_info src = inr info ->
  (exists m, denotes src (MT m) /\ _get_info_miditoolkit m = inr info)
  \/ (exists p, denotes src (PM p) /\ _get_info_pretty_midi p = inr info).
Proof.
  unfold get_midi_info. intros (o & Ho & Hinfo)%bind_inr.
  assert (denotes src o) as Hden.
  { destruct src; [done | by injection Ho]. }
  destruct o as [m | p | ? ?]; [left | right | discriminate]; eauto.
Qed.

(** What [_get_info_miditoolkit] returns, when it returns. *)
Lemma get_info_miditoolkit_inr (m : MidiFile) (info : dict) :
  _get_info_miditoolkit m = inr info ->
  summarises (instruments m) info
  /\ records_pitch_range (instruments m) info
  /\ info !! "tempo_changes" = Some (VInt (len (tempo_changes m)))
  /\ (info !! "duration_seconds" = None
      \/ exists duration, info !! "duration_seconds" = Some (VFloat duration)).
Proof.
  unfold _get_info_miditoolkit. name_summary.
  set (core := summary_of _ _).
  assert (summarises (instruments m) core) as Hsum
    by (by apply summary_of_summarises).
  assert (records_pitch_range (instruments m) core) as Hrec
    by (by apply summary_of_records).
  assert (core !! "tempo_changes" = Some (VInt (len (tempo_changes m)))) as Htempo
    by (unfold core; by rewrite lookup_summary_of_other).
  assert (core !! "duration_seconds" = None) as Hdur
    by (unfold core; by rewrite lookup_summary_of_other).
  clearbody core.
  destruct (negb (max_tick m =? 0)); [| intros [= <-]; eauto].
  destruct (tempo_changes m) as [|tc tcs] eqn:Htcs; [intros [= <-]; eauto |].
  intros (beats & _ & [= <-])%bind_inr. split; [| split; [| split]].
  - by do 2 (apply summarises_insert; [done | done |]).
  - by do 2 (apply records_pitch_range_insert; [done |]).
  - by rewrite !lookup_insert_ne.
  - right. eexists. rewrite lookup_insert_ne by done. apply lookup_insert_eq.
Qed.

(** Without a tick or without a tempo event [_get_info_miditoolkit]
    returns, and its dictionary has no duration. *)
Lemma get_info_miditoolkit_no_duration (m : MidiFile) :
  max_tick m = 0 \/ tempo_changes m = [] ->
  exists info,
    _get_info_miditoolkit m = inr info /\ info !! "duration_seconds" = None.
Proof.
  intros Hm. unfold _get_info_miditoolkit. name_summary.
  set (core := summary_of _ _).
  assert (core !! "duration_seconds" = None) as Hdur
    by (unfold core; by rewrite lookup_summary_of_other).
  clearbody core. exists core. split; [| done].
  destruct Hm as [-> | ->]; [done | by destruct (negb _)].
Qed.

(** [_get_info_pretty_midi] always returns. *)
Lemma get_info_pretty_midi_inr (p : PrettyMIDI) :
  exists info,
    _get_info_pretty_midi p = inr info
    /\ summarises (pm_instruments p) info
    /\ records_pitch_range (pm_instruments p) info
    /\ info !! "tempo_changes" = None
    /\ info !! "duration_seconds" = Some (VFloat (get_end_time p)).
Proof.
  unfold _get_info_pretty_midi. name_summary.
  eexists. split; [reflexivity |]. split; [| split; [| split]].
  - by apply summary_of_summarises.
  - by apply summary_of_records.
  - by rewrite lookup_summary_of_other.
  - by rewrite lookup_summary_of_other.
Qed.

(** The entries [validate_midi_file] reads have the types it expects. *)
Lemma get_midi_info_total_notes (src : midi_source) (info : dict) :
  get_midi_info src = inr info ->
  exists n, info !! "total_notes" = Some (VInt n).
Proof.
  intros [(m & _ & Hm) | (p & _ & Hp)]%get_midi_info_inr.
  - apply get_info_miditoolkit_inr in Hm as ((? & _ & _ & ?) & _). eauto.
  - destruct (get_info_pretty_midi_inr p) as (info' & Hp' & (? & _ & _ & ?) & _).
    rewrite Hp in Hp'. injection Hp' as <-. eauto.
Qed.

Lemma get_midi_info_duration (src : midi_source) (info : dict) :
  get_midi_info src = inr info ->
  info !! "duration_seconds" = None
  \/ exists duration, info !! "duration_seconds" = Some (VFloat duration).
Proof.
  intros [(m & _ & Hm) | (p & _ & Hp)]%get_midi_info_inr.
  - by apply get_info_miditoolkit_inr in Hm as (_ & _ & _ & ?).
  - destruct (get_info_pretty_midi_inr p) as (info' & Hp' & _ & _ & _ & ?).
    rewrite Hp in Hp'. injection Hp' as <-. eauto.
Qed.

(** The note count and the duration that [_get_info_miditoolkit] stores. *)
Lemma get_info_miditoolkit_total_notes (m : MidiFile) (info : dict) :
  _get_info_miditoolkit m = inr info ->
  info !! "total_notes" = Some (VInt (count_notes (instruments m))).
Proof.
  unfold _get_info_miditoolkit. name_summary.
  set (core := summary_of _ _).
  assert (core !! "total_notes" = Some (VInt (count_notes (instruments m)))) as Hn
    by apply lookup_summary_of_total_notes.
  clearbody core.
  destruct (negb (max_tick m =? 0)); [| by intros [= <-]].
  destruct (tempo_changes m) as [|tc tcs]; [by intros [= <-] |].
  intros (beats & _ & [= <-])%bind_inr. by rewrite !lookup_insert_ne.
Qed.

Lemma get_info_miditoolkit_duration (m : MidiFile) (info : dict) (beats : float) :
  max_tick m <> 0 -> tempo_changes m <> [] ->
  py_truediv (max_tick m) (ticks_per_beat m) = inr beats ->
  _get_info_miditoolkit m = inr info ->
  info !! "duration_seconds"
  = Some (VFloat (PrimFloat.mul beats
                    (PrimFloat.div 60%float (np_mean (map tempo (tempo_changes m))))))
  /\ info !! "duration_ticks" = Some (VInt (max_tick m)).
Proof.
  intros Htick Htempo Hbeats. unfold _get_info_miditoolkit. cbv zeta.
  apply Z.eqb_neq in Htick. rewrite Htick. simpl.
  destruct (tempo_changes m) as [|tc tcs]; [done |].
  rewrite Hbeats. simpl. intros [= <-]. split.
  - rewrite lookup_insert_ne by done. apply lookup_insert_eq.
  - apply lookup_insert_eq.
Qed.


End Info.

(** ** [load_midi_file] and [validate_midi_file] *)

Section Validation.
Context `{RT : Runtime}.
Implicit Types (src : midi_source) (info : dict) (min_notes : Z)
  (max_duration min_duration : option float) (require_tempo : bool).

(** [validate_midi_file] on a source whose summary is [info]: the three
    checks, in their order. *)
Lemma validate_midi_file_checks src info (n : Z)
    min_notes max_duration min_duration require_tempo :
  get_midi_info src = inr info ->
  info !! "total_notes" = Some (VInt n) ->
  validate_midi_file src min_notes max_duration min_duration require_tempo
  = if n <? min_notes then
      inr (false, "Too few notes: " +:+ str_int n +:+ " < " +:+ str_int min_notes)
    else
      let tempo_check :=
        if require_tempo && eq_zero (default (VInt 0) (info !! "tempo_changes"))
        then inr (false, "No tempo changes found")
        else inr (true, "Valid") in
      match info !! "duration_seconds" with
      | Some (VFloat duration) =>
          if exceeds max_duration duration then
            inr (false, "Duration too long: " +:+ format_1f duration +:+ "s > "
                          +:+ str_bound max_duration +:+ "s")
          else if falls_short min_duration duration then
            inr (false, "Duration too short: " +:+ format_1f duration +:+ "s < "
                          +:+ str_bound min_duration +:+ "s")
          else tempo_check
      | Some _ =>
          inr (false, "Error loading MIDI: unsupported format string passed to __format__")
      | None => tempo_check
      end.
Proof.
  intros Hinfo Hn. unfold validate_midi_file, getitem.
  rewrite Hinfo. simpl. rewrite Hn. simpl.
  destruct (n <? min_notes); [done |].
  destruct (info !! "duration_seconds") as [[]|]; simpl; try done.
  - destruct (exceeds _ _); [done |]. destruct (falls_short _ _); [done |].
    simpl. by destruct (_ && _).
  - by destruct (_ && _).
Qed.



(** C8: [validate_midi_file] never raises; when [get_midi_info] raises
    [e], the answer is [False] with the reason "Error loading MIDI: "
    followed by [str(e)]. *)
Theorem validate_midi_file_total src min_notes max_duration min_duration require_tempo :
  exists ok reason,
    validate_midi_file src min_notes max_duration min_duration require_tempo
    = inr (ok, reason)
    /\ forall e, get_midi_info src = inl e ->
         ok = false /\ reason = "Error loading MIDI: " +:+ exn_str e.
Proof.
  destruct (get_midi_info src) as [e | info] eqn:Hinfo.
  - exists false, ("Error loading MIDI: " +:+ exn_str e). split.
    + unfold validate_midi_file. by rewrite Hinfo.
    + by intros ? [= <-].
  - destruct (get_midi_info_total_notes _ _ Hinfo) as [n Hn].
    rewrite (validate_midi_file_checks _ _ _ _ _ _ _ Hinfo Hn). cbv zeta.
    destruct (n <? min_notes); [by do 2 eexists |].
    destruct (info !! "duration_seconds") as [[]|];
      repeat match goal with
             | |- context [if ?b then _ else _] => destruct b
             end; by do 2 eexists.
Qed.

(** C9: a miditoolkit object with no tick or no tempo event gets a
    summary without "duration_seconds", and [validate_midi_file] answers
    on it as it does without any duration bound. *)
Theorem validate_midi_file_no_duration src (m : MidiFile) :
  denotes src (MT m) ->
  max_tick m = 0 \/ tempo_changes m = [] ->
  exists info,
    get_midi_info src = inr info
    /\ info !! "duration_seconds" = None
    /\ forall min_notes max_duration min_duration require_tempo,
         validate_midi_file src min_notes max_duration min_duration require_tempo
         = validate_midi_file src min_notes None None require_tempo.
Proof.
  intros Hden Hm.
  destruct (get_info_miditoolkit_no_duration m Hm) as (info & Hinfo & Hdur).
  exists info. rewrite (get_midi_info_denotes _ _ Hden).
  split; [done |]. split; [done |]. intros.
  assert (get_midi_info src = inr info) as Hget
    by (by rewrite (get_midi_info_denotes _ _ Hden)).
  destruct (get_midi_info_total_notes _ _ Hget) as [n Hn].
  rewrite !(validate_midi_file_checks _ _ _ _ _ _ _ Hget Hn).
  by rewrite Hdur.
Qed.

End Validation.

(** ** The tempo and duration checks *)

Section Thresholds.
Context `{RT : Runtime}.
Implicit Types (src : midi_source) (info : dict) (min_notes : Z)
  (max_duration min_duration : option float) (require_tempo : bool).

(** The two tests of the code are the two comparisons of the floats. *)
Lemma exceeds_too_long max_duration (duration : float) :
  exceeds max_duration duration = true <-> too_long max_duration duration.
Proof.
  unfold exceeds, too_long, float_truthy. destruct max_duration as [b|].
  - rewrite andb_true_iff, negb_true_iff. split.
    + intros [? ?]. by exists b.
    + by intros (b' & [= <-] & ? & ?).
  - split; [done | by intros (? & [=] & _)].
Qed.

Lemma falls_short_too_short min_duration (duration : float) :
  falls_short min_duration duration = true <-> too_short min_duration duration.
Proof.
  unfold falls_short, too_short, float_truthy. destruct min_duration as [b|].
  - rewrite andb_true_iff, negb_true_iff. split.
    + intros [? ?]. by exists b.
    + by intros (b' & [= <-] & ? & ?).
  - split; [done | by intros (? & [=] & _)].
Qed.

Lemma exceeds_not_too_long max_duration (duration : float) :
  exceeds max_duration duration = false <-> ~ too_long max_duration duration.
Proof. rewrite <- exceeds_too_long. by destruct (exceeds _ _). Qed.

Lemma falls_short_not_too_short min_duration (duration : float) :
  falls_short min_duration duration = false <-> ~ too_short min_duration duration.
Proof. rewrite <- falls_short_too_short. by destruct (falls_short _ _). Qed.


(** X1: the duration bounds as the code applies them.  A duration beyond
    a maximum that is given and not zero, or below a minimum that is
    given and not zero, is rejected; with enough notes the reason names
    the maximum in the first case and, when the maximum is kept, the
    minimum in the second.  A duration that is neither is not rejected
    for its duration. *)
Lemma validate_midi_file_duration src info (duration : float) (n : Z)
    min_notes max_duration min_duration require_tempo :
  get_midi_info src = inr info ->
  info !! "total_notes" = Some (VInt n) ->
  info !! "duration_seconds" = Some (VFloat duration) ->
  (too_long max_duration duration \/ too_short min_duration duration ->
   exists reason,
     validate_midi_file src min_notes max_duration min_duration require_tempo
     = inr (false, reason))
  /\ (min_notes <= n -> too_long max_duration duration ->
      forall bound, max_duration = Some bound ->
      validate_midi_file src min_notes max_duration min_duration require_tempo
      = inr (false, "Duration too long: " +:+ format_1f duration +:+ "s > "
                      +:+ str_float bound +:+ "s"))
  /\ (min_notes <= n -> ~ too_long max_duration duration ->
      too_short min_duration duration ->
      forall bound, min_duration = Some bound ->
      validate_midi_file src min_notes max_duration min_duration require_tempo
      = inr (false, "Duration too short: " +:+ format_1f duration +:+ "s < "
                      +:+ str_float bound +:+ "s"))
  /\ (~ too_long max_duration duration ->
      ~ too_short min_duration duration ->
      exists ok reason,
        validate_midi_file src min_notes max_duration min_duration require_tempo
        = inr (ok, reason)
        /\ String.prefix "Duration too" reason = false).
Proof.
  intros Hinfo Hn Hdur.
  rewrite (validate_midi_file_checks _ _ _ _ _ _ _ Hinfo Hn), Hdur. cbv zeta.
  split; [| split; [| split]].
  - intros Hout. destruct (n <? min_notes); [by eexists |].
    destruct (exceeds max_duration duration) eqn:Hmax; [by eexists |].
    destruct (falls_short min_duration duration) eqn:Hmin; [by eexists |].
    apply exceeds_not_too_long in Hmax. apply falls_short_not_too_short in Hmin.
    tauto.
  - intros Hge Hlong%exceeds_too_long bound ->.
    by rewrite (proj2 (Z.ltb_ge _ _) Hge), Hlong.
  - intros Hge Hkept%exceeds_not_too_long Hshort%falls_short_too_short bound ->.
    by rewrite (proj2 (Z.ltb_ge _ _) Hge), Hkept, Hshort.
  - intros ->%exceeds_not_too_long ->%falls_short_not_too_short.
    destruct (n <? min_notes); [by do 2 eexists |].
    destruct (_ && _); by do 2 eexists.
Qed.

(** The bound [Some 0.0] is never exceeded: the truth test of the bound
    takes it for no bound. *)
Lemma exceeds_zero (duration : float) : exceeds (Some 0%float) duration = false.
Proof. reflexivity. Qed.

End Thresholds.

(** ** [filter_midi_by_instrument] *)

Section Filter.
Context `{RT : Runtime}.

Lemma py_in_elem_of (x : Z) (l : list Z) : py_in x l = bool_decide (x ∈ l).
Proof.
  unfold py_in. induction l as [|y l IH]; cbn [existsb].
  - symmetry. apply bool_decide_eq_false_2. by intros ?%elem_of_nil.
  - rewrite IH. destruct (Z.eqb_spec x y) as [-> | Hne]; cbn [orb].
    + symmetry. apply bool_decide_eq_true_2. by left.
    + apply bool_decide_ext. rewrite elem_of_cons. tauto.
Qed.

(** The loop of the source keeps what [filter] keeps. *)
Lemma filter_instruments_from {T} (program_numbers : option (list Z))
    (exclude_drums : bool) (insts acc : list (Instrument T)) :
  fold_left
    (fun filtered_instruments inst =>
       if exclude_drums && is_drum inst then filtered_instruments
       else if match program_numbers with
               | None => true
               | Some l => py_in (program inst) l
               end
            then filtered_instruments ++ [inst]
            else filtered_instruments)
    insts acc
  = acc ++ List.filter (kept program_numbers exclude_drums) insts.
Proof.
  revert acc; induction insts as [|inst insts IH]; intros acc; simpl.
  - by rewrite app_nil_r.
  - rewrite IH. clear IH.
    assert ((if exclude_drums && is_drum inst then acc
             else if match program_numbers with
                     | None => true
                     | Some l => py_in (program inst) l
                     end
                  then acc ++ [inst] else acc)
            = acc ++ (if kept program_numbers exclude_drums inst then [inst] else []))
      as ->.
    { unfold kept. destruct program_numbers as [ps|].
      - rewrite py_in_elem_of.
        destruct exclude_drums, (is_drum inst), (bool_decide (program inst ∈ ps));
          simpl; by rewrite ?app_nil_r.
      - destruct exclude_drums, (is_drum inst); simpl; by rewrite ?app_nil_r. }
    destruct (kept program_numbers exclude_drums inst).
    + by rewrite <- app_assoc.
    + by rewrite app_nil_r.
Qed.

Lemma filter_instruments_filter {T} (program_numbers : option (list Z))
    (exclude_drums : bool) (insts : list (Instrument T)) :
  filter_instruments program_numbers exclude_drums insts
  = List.filter (kept program_numbers exclude_drums) insts.
Proof. unfold filter_instruments. by rewrite filter_instruments_from. Qed.

Lemma kept_sound {T} (program_numbers : option (list Z)) (exclude_drums : bool)
    (inst : Instrument T) :
  kept program_numbers exclude_drums inst = true ->
  (exclude_drums = true -> is_drum inst = false)
  /\ (forall ps, program_numbers = Some ps -> program inst ∈ ps).
Proof.
  unfold kept. intros [Hdrum Hprog]%andb_true_iff. split.
  - intros ->. by apply negb_true_iff.
  - intros ps ->. by apply bool_decide_eq_true in Hprog.
Qed.

(** What the function does to the object it is given or loads. *)
Lemma filter_midi_by_instrument_holds (hd : midi_handle)
    (program_numbers : option (list Z)) (exclude_drums : bool) (h : heap)
    (m : MidiFile) :
  holds h hd m ->
  exists l h0,
    (match hd with
     | PathArg _ => (l, h0) = new_object (MT m) h
     | ObjArg l' => l = l' /\ h0 = h
     end)
    /\ filter_midi_by_instrument hd program_numbers exclude_drums h
       = inr (l, <[l := MT (set_instruments m
                     (filter_instruments program_numbers exclude_drums (instruments m)))]> h0).
Proof.
  unfold holds, filter_midi_by_instrument. destruct hd as [file_path | l]; intros Hm.
  - rewrite Hm. simpl. eexists _, _. split; [reflexivity |].
    by rewrite lookup_insert_eq.
  - simpl. rewrite Hm. by eexists _, _.
Qed.

(** C4: the instruments left by [filter_midi_by_instrument] are exactly
    the instruments of the input that are kept, in their order; none of
    them is a drum track when drums are excluded, each has a listed
    program when programs are listed, and without a list all instruments
    that are not excluded stay. *)
Theorem filter_midi_by_instrument_keeps (hd : midi_handle)
    (program_numbers : option (list Z)) (exclude_drums : bool) (h : heap)
    (m : MidiFile) :
  holds h hd m ->
  exists l h' m',
    filter_midi_by_instrument hd program_numbers exclude_drums h = inr (l, h')
    /\ h' !! l = Some (MT m')
    /\ instruments m' = List.filter (kept program_numbers exclude_drums) (instruments m)
    /\ Forall (fun inst =>
                 (exclude_drums = true -> is_drum inst = false)
                 /\ (forall ps, program_numbers = Some ps -> program inst ∈ ps))
              (instruments m')
    /\ (program_numbers = None ->
        instruments m'
        = List.filter (fun inst => negb (exclude_drums && is_drum inst)) (instruments m)).
Proof.
  intros Hm.
  destruct (filter_midi_by_instrument_holds _ program_numbers exclude_drums _ _ Hm)
    as (l & h0 & _ & Hrun).
  eexists l, _, _. split; [exact Hrun |].
  split; [apply lookup_insert_eq |]. simpl.
  rewrite filter_instruments_filter. split; [done |]. split.
  - apply Forall_forall. intros inst Hin.
    apply list_elem_of_In, filter_In in Hin as [_ Hkept].
    by apply kept_sound.
  - intros ->. apply filter_ext. intros inst. unfold kept.
    by destruct exclude_drums, (is_drum inst).
Qed.

(** C10: on a reference to a loaded MidiFile the function hands back the
    same reference; afterwards the object behind it has as its
    instruments the instruments it had that are kept, in their order, and
    all its other fields as before, and no other object of the heap has
    changed. *)
Theorem filter_midi_by_instrument_in_place (l : loc)
    (program_numbers : option (list Z)) (exclude_drums : bool) (h : heap)
    (m : MidiFile) :
  h !! l = Some (MT m) ->
  exists h' m',
    filter_midi_by_instrument (ObjArg l) program_numbers exclude_drums h = inr (l, h')
    /\ h' !! l = Some (MT m')
    /\ instruments m'
       = List.filter (kept program_numbers exclude_drums) (instruments m)
    /\ ticks_per_beat m' = ticks_per_beat m
    /\ max_tick m' = max_tick m
    /\ tempo_changes m' = tempo_changes m
    /\ time_signature_changes m' = time_signature_changes m
    /\ key_signature_changes m' = key_signature_changes m
    /\ (forall l', l' <> l -> h' !! l' = h !! l').
Proof.
  intros Hm.
  destruct (filter_midi_by_instrument_holds (ObjArg l) program_numbers exclude_drums h m Hm)
    as (l0 & h0 & [-> ->] & Hrun).
  eexists _, _. split; [exact Hrun |].
  split; [apply lookup_insert_eq |].
  split; [apply filter_instruments_filter |].
  repeat (split; [reflexivity |]).
  intros l' Hne. by rewrite lookup_insert_ne.
Qed.

End Filter.

(** ** The summary that [get_midi_info] returns *)

Section Returned.
Context `{RT : Runtime}.

(** C5: in the dictionary that [get_midi_info] returns for an object of
    either backend, the instruments list has one entry per instrument of
    the object, in the same order, and [total_notes] is the sum of the
    [num_notes] fields of that list. *)
Theorem get_midi_info_summarises (src : midi_source) (o : pyobj) (info : dict) :
  denotes src o ->
  get_midi_info src = inr info ->
  match o with
  | MT m => summarises (instruments m) info
  | PM p => summarises (pm_instruments p) info
  | Foreign _ _ => False
  end.
Proof.
  intros Hden. rewrite (get_midi_info_denotes _ _ Hden).
  destruct o as [m | p | ? ?]; [| | discriminate].
  - by intros (? & _)%get_info_miditoolkit_inr.
  - destruct (get_info_pretty_midi_inr p) as (info' & -> & ? & _).
    by intros [= <-].
Qed.

(** C6: in the dictionary that [get_midi_info] returns for an object of
    either backend with at least one note, "pitch_range" holds the lowest
    pitch of all notes of all instruments as "min", the highest as "max"
    and their difference as "span"; for an object without a note the key
    is absent. *)
Theorem get_midi_info_pitch_range (src : midi_source) (o : pyobj) (info : dict) :
  denotes src o ->
  get_midi_info src = inr info ->
  match o with
  | MT m => records_pitch_range (instruments m) info
  | PM p => records_pitch_range (pm_instruments p) info
  | Foreign _ _ => False
  end.
Proof.
  intros Hden. rewrite (get_midi_info_denotes _ _ Hden).
  destruct o as [m | p | ? ?]; [| | discriminate].
  - by intros (_ & ? & _)%get_info_miditoolkit_inr.
  - destruct (get_info_pretty_midi_inr p) as (info' & -> & _ & ? & _).
    by intros [= <-].
Qed.

(** When [get_midi_info] returns: always on a pretty_midi object; on a
    miditoolkit object unless the division of the ticks raises. *)
Lemma get_midi_info_returns (src : midi_source) (o : pyobj) :
  denotes src o ->
  match o with
  | MT m =>
      max_tick m = 0 \/ tempo_changes m = []
      \/ (exists beats, py_truediv (max_tick m) (ticks_per_beat m) = inr beats)
  | PM _ => True
  | Foreign _ _ => False
  end ->
  exists info, get_midi_info src = inr info.
Proof.
  intros Hden. rewrite (get_midi_info_denotes _ _ Hden).
  destruct o as [m | p | ? ?]; [| | done].
  - intros [Hm | [Hm | [beats Hbeats]]].
    + destruct (get_info_miditoolkit_no_duration m) as (info & ? & _); eauto.
    + destruct (get_info_miditoolkit_no_duration m) as (info & ? & _); eauto.
    + unfold _get_info_miditoolkit. cbv zeta.
      destruct (negb _); [| by eexists].
      destruct (tempo_changes m); [by eexists |].
      rewrite Hbeats. by eexists.
  - intros _. destruct (get_info_pretty_midi_inr p) as (info & ? & _). eauto.
Qed.

(** X2: a miditoolkit object with ticks, a tempo event and zero ticks per
    beat makes [get_midi_info] raise [ZeroDivisionError]. *)
Lemma get_midi_info_zero_division (src : midi_source) (m : MidiFile) :
  denotes src (MT m) ->
  max_tick m <> 0 -> tempo_changes m <> [] -> ticks_per_beat m = 0 ->
  get_midi_info src = inl (Exn ZeroDivisionError "division by zero").
Proof.
  intros Hden Htick Htempo Hbeat. rewrite (get_midi_info_denotes _ _ Hden).
  unfold _get_info_miditoolkit, py_truediv. cbv zeta.
  rewrite Hbeat. apply Z.eqb_neq in Htick. rewrite Htick. simpl.
  by destruct (tempo_changes m).
Qed.

End Returned.

(** ** The statements on the sample environment *)

(** C2, where the code leaves the claim: [song.mid] lasts one second,
    which exceeds the bound of zero seconds, and [validate_midi_file]
    with [max_duration = 0.0] accepts it. *)
Theorem validate_midi_file_zero_max_duration :
  match @get_midi_info Demo.runtime (AtPath "song.mid") with
  | inr info => info !! "duration_seconds"
  | inl _ => None
  end = Some (VFloat 1%float)
  /\ PrimFloat.ltb 0%float 1%float = true
  /\ @validate_midi_file Demo.runtime (AtPath "song.mid") 10 (Some 0%float) None false
     = inr (true, "Valid").
Proof. repeat split; vm_compute; reflexivity. Qed.







Lemma validate_midi_file_total_witness :
  @validate_midi_file Demo.runtime (AtPath "nowhere.mid") 10 None None false
  = inr (false, "Error loading MIDI: MIDI file not found: nowhere.mid").
Proof.
  destruct (@validate_midi_file_total Demo.runtime (AtPath "nowhere.mid") 10 None None false)
    as (ok & reason & -> & Hraised).
  destruct (Hraised (Exn FileNotFoundError "MIDI file not found: nowhere.mid"))
    as [-> ->]; reflexivity.
Defined.

Lemma validate_midi_file_no_duration_witness :
  exists info,
    @get_midi_info Demo.runtime (Given (MT Demo.untimed)) = inr info
    /\ info !! "duration_seconds" = None
    /\ forall min_notes max_duration min_duration require_tempo,
         @validate_midi_file Demo.runtime (Given (MT Demo.untimed))
           min_notes max_duration min_duration require_tempo
         = @validate_midi_file Demo.runtime (Given (MT Demo.untimed))
             min_notes None None require_tempo.
Proof.
  apply (@validate_midi_file_no_duration Demo.runtime (Given (MT Demo.untimed)) Demo.untimed).
  - reflexivity.
  - right. reflexivity.
Defined.

Lemma get_midi_info_summarises_witness :
  match @get_midi_info Demo.runtime (AtPath "song.mid") with
  | inr info => summarises (instruments Demo.song) info
  | inl _ => False
  end.
Proof.
  destruct (@get_midi_info_returns Demo.runtime (AtPath "song.mid") (MT Demo.song))
    as [info Hinfo].
  - reflexivity.
  - right. right. eexists. vm_compute. reflexivity.
  - rewrite Hinfo.
    apply (@get_midi_info_summarises Demo.runtime (AtPath "song.mid") (MT Demo.song) info);
      [reflexivity | exact Hinfo].
Defined.

Lemma get_midi_info_pitch_range_witness :
  match @get_midi_info Demo.runtime (Given (PM Demo.played)) with
  | inr info => records_pitch_range (pm_instruments Demo.played) info
  | inl _ => False
  end.
Proof.
  destruct (@get_midi_info_returns Demo.runtime (Given (PM Demo.played)) (PM Demo.played))
    as [info Hinfo].
  - reflexivity.
  - exact I.
  - rewrite Hinfo.
    apply (@get_midi_info_pitch_range Demo.runtime (Given (PM Demo.played))
             (PM Demo.played) info);
      [reflexivity | exact Hinfo].
Defined.

Lemma filter_midi_by_instrument_keeps_witness :
  exists l h' m',
    @filter_midi_by_instrument Demo.runtime (PathArg "song.mid") (Some [0; 40]) true
      Demo.studio = inr (l, h')
    /\ h' !! l = Some (MT m')
    /\ instruments m' = List.filter (kept (Some [0; 40]) true) (instruments Demo.song)
    /\ Forall (fun inst =>
                 (true = true -> is_drum inst = false)
                 /\ (forall ps, Some [0; 40] = Some ps -> program inst ∈ ps))
              (instruments m')
    /\ (Some [0; 40] = None ->
        instruments m'
        = List.filter (fun inst => negb (true && is_drum inst)) (instruments Demo.song)).
Proof.
  apply (@filter_midi_by_instrument_keeps Demo.runtime (PathArg "song.mid")
           (Some [0; 40]) true Demo.studio Demo.song).
  reflexivity.
Defined.

Lemma filter_midi_by_instrument_in_place_witness :
  exists h' m',
    @filter_midi_by_instrument Demo.runtime (ObjArg 1%positive) (Some [0]) true
      Demo.studio = inr (1%positive, h')
    /\ h' !! 1%positive = Some (MT m')
    /\ instruments m'
       = List.filter (kept (Some [0]) true) (instruments Demo.song)
    /\ ticks_per_beat m' = ticks_per_beat Demo.song
    /\ max_tick m' = max_tick Demo.song
    /\ tempo_changes m' = tempo_changes Demo.song
    /\ time_signature_changes m' = time_signature_changes Demo.song
    /\ key_signature_changes m' = key_signature_changes Demo.song
    /\ (forall l', l' <> 1%positive -> h' !! l' = Demo.studio !! l').
Proof.
  apply (@filter_midi_by_instrument_in_place Demo.runtime 1%positive (Some [0]) true
           Demo.studio Demo.song).
  reflexivity.
Defined.

(** The filters of the source on the sample heap: the piano alone is
    left of [song], and the object is found where it was. *)
Example filter_song_piano :
  match @get_piano_midi Demo.runtime (ObjArg 1%positive) Demo.studio with
  | inr (l, h') => (l, instruments <$> (h' !! l ≫= fun o => match o with MT m => Some m | _ => None end))
  | inl _ => (1%positive, None)
  end = (1%positive, Some [Demo.piano]).
Proof. vm_compute. reflexivity. Qed.

Lemma validate_midi_file_duration_witness :
  @validate_midi_file Demo.runtime (AtPath "song.mid") 10 (Some 0.5%float) None false
  = inr (false, "Duration too long: 1.0s > 0.5s").
Proof.
  destruct (@get_midi_info_returns Demo.runtime (AtPath "song.mid") (MT Demo.song))
    as [info Hinfo].
  - reflexivity.
  - right. right. eexists. vm_compute. reflexivity.
  - assert (info !! "total_notes" = Some (VInt 17)) as Hn
      by exact (@get_info_miditoolkit_total_notes Demo.runtime Demo.song _ Hinfo).
    assert (info !! "duration_seconds" = Some (VFloat 1%float)) as Hdur.
    { refine (proj1 (@get_info_miditoolkit_duration Demo.runtime Demo.song info 2%float
                       _ _ _ Hinfo)); [discriminate | discriminate |].
      vm_compute. reflexivity. }
    assert (@validate_midi_file Demo.runtime (AtPath "song.mid") 10 (Some 0.5%float)
              None false
            = inr (false, "Duration too long: " +:+ Demo.one_decimal 1%float +:+ "s > "
                            +:+ Demo.shortest 0.5%float +:+ "s")) as ->.
    { apply (proj1 (proj2 (@validate_midi_file_duration Demo.runtime _ _ _ 17 10
                             (Some 0.5%float) None false Hinfo Hn Hdur))).
      - lia.
      - exists 0.5%float. repeat split; vm_compute; reflexivity.
      - reflexivity. }
    vm_compute. reflexivity.
Defined.

Lemma get_midi_info_zero_division_witness :
  @get_midi_info Demo.runtime (Given (MT Demo.stalled))
  = inl (Exn ZeroDivisionError "division by zero").
Proof.
  apply (@get_midi_info_zero_division Demo.runtime (Given (MT Demo.stalled)) Demo.stalled);
    [reflexivity | discriminate | discriminate | reflexivity].
Defined.

(** ** [midi_to_note_sequence] *)

Section NoteSequence.

Lemma collect_notes_from (insts : list (Instrument Z)) (acc : list value) :
  fold_left
    (fun sequence inst =>
       fold_left (fun sequence note => sequence ++ [note_dict inst note])
         (notes inst) sequence)
    insts acc
  = acc ++ all_note_dicts insts.
Proof.
  assert (forall inst (l : list (Note Z)) (acc : list value),
            fold_left (fun sequence note => sequence ++ [note_dict inst note]) l acc
            = acc ++ map (note_dict inst) l) as Hinner.
  { intros inst l. induction l as [|note l IH]; intros acc'; simpl.
    - by rewrite app_nil_r.
    - by rewrite IH, <- app_assoc. }
  unfold all_note_dicts.
  revert acc; induction insts as [|inst insts IH]; intros acc; simpl.
  - by rewrite app_nil_r.
  - by rewrite IH, Hinner, <- app_assoc.
Qed.

Lemma collect_notes_all (insts : list (Instrument Z)) :
  collect_notes insts = all_note_dicts insts.
Proof. unfold collect_notes. by rewrite collect_notes_from. Qed.

(** Every entry has an integer under "start", so no key raises. *)
Lemma start_key_note_dict (inst : Instrument Z) (note : Note Z) :
  (v <- subscript (note_dict inst note) "start"; int_of v) = inr (start note)
  /\ start_field (note_dict inst note) = start note.
Proof. split; reflexivity. Qed.

Lemma keys_of_all_note_dicts (insts : list (Instrument Z)) :
  keys_of (fun x => v <- subscript x "start"; int_of v) (all_note_dicts insts)
  = inr (map (fun x => (start_field x, x)) (all_note_dicts insts)).
Proof.
  assert (forall l : list value,
            Forall (fun x => exists inst note, x = note_dict inst note) l ->
            keys_of (fun x => v <- subscript x "start"; int_of v) l
            = inr (map (fun x => (start_field x, x)) l)) as Hkeys.
  { induction 1 as [|x l (inst & note & ->) _ IH]; [done |].
    cbn [keys_of map]. rewrite IH.
    destruct (start_key_note_dict inst note) as [-> ->]. done. }
  apply Hkeys. unfold all_note_dicts.
  induction insts as [|inst insts IH]; simpl; [constructor |].
  apply Forall_app. split; [| done].
  apply Forall_forall. intros x (note & -> & _)%list_elem_of_fmap. eauto.
Qed.

Lemma insert_by_key_split (kx : Z * value) (l : list (Z * value)) :
  exists l1 l2,
    l = l1 ++ l2
    /\ insert_by_key kx l = l1 ++ kx :: l2
    /\ Forall (fun ky => fst ky < fst kx) l1
    /\ (forall ky, head l2 = Some ky -> fst kx <= fst ky).
Proof.
  induction l as [|ky l (l1 & l2 & -> & Hins & Hl1 & Hl2)]; simpl.
  - exists [], []. repeat split; [constructor | done].
  - destruct (Z.ltb_spec (fst ky) (fst kx)) as [Hlt | Hge].
    + exists (ky :: l1), l2. rewrite Hins. repeat split; [by constructor | done].
    + exists [], (ky :: l1 ++ l2). repeat split; [constructor |].
      by intros ? [= <-].
Qed.

Lemma insert_by_key_perm (kx : Z * value) (l : list (Z * value)) :
  insert_by_key kx l ≡ₚ kx :: l.
Proof.
  destruct (insert_by_key_split kx l) as (l1 & l2 & -> & -> & _).
  by rewrite Permutation_middle.
Qed.

Lemma stable_sort_perm (l : list (Z * value)) : stable_sort l ≡ₚ l.
Proof.
  unfold stable_sort. induction l as [|kx l IH]; simpl; [done |].
  by rewrite insert_by_key_perm, IH.
Qed.

Lemma insert_by_key_sorted (kx : Z * value) (l : list (Z * value)) :
  StronglySorted (fun a b => fst a <= fst b) l ->
  StronglySorted (fun a b => fst a <= fst b) (insert_by_key kx l).
Proof.
  induction 1 as [|ky l Hsorted IH Hky]; simpl; [repeat constructor |].
  destruct (Z.ltb_spec (fst ky) (fst kx)) as [Hlt | Hge].
  - constructor; [done |].
    rewrite insert_by_key_perm. constructor; [lia | done].
  - constructor; [by constructor |].
    constructor; [done |].
    eapply Forall_impl; [exact Hky |]. simpl. intros. lia.
Qed.

Lemma stable_sort_sorted (l : list (Z * value)) :
  StronglySorted (fun a b => fst a <= fst b) (stable_sort l).
Proof.
  unfold stable_sort. induction l as [|kx l IH]; simpl; [constructor |].
  by apply insert_by_key_sorted.
Qed.

(** The elements of one key keep their order. *)
Lemma insert_by_key_stable (s : Z) (kx : Z * value) (l : list (Z * value)) :
  filter (fun ky => fst ky = s) (insert_by_key kx l)
  = filter (fun ky => fst ky = s) (kx :: l).
Proof.
  destruct (insert_by_key_split kx l) as (l1 & l2 & -> & -> & Hl1 & _).
  rewrite filter_cons, !filter_app, filter_cons.
  destruct (decide (fst kx = s)) as [<- | Hne]; [| done].
  assert (filter (fun ky => fst ky = fst kx) l1 = []) as ->; [| done].
  induction Hl1 as [|ky l1 Hlt _ IH]; [done |].
  rewrite filter_cons. destruct (decide (fst ky = fst kx)); [lia | done].
Qed.

Lemma stable_sort_stable (s : Z) (l : list (Z * value)) :
  filter (fun ky => fst ky = s) (stable_sort l) = filter (fun ky => fst ky = s) l.
Proof.
  unfold stable_sort. induction l as [|kx l IH]; simpl; [done |].
  by rewrite insert_by_key_stable, !filter_cons, IH.
Qed.

End NoteSequence.

Section NoteSequenceResult.
Context `{RT : Runtime}.

Lemma keyed_consistent (l : list value) (keyed : list (Z * value)) :
  keyed ≡ₚ map (fun x => (start_field x, x)) l ->
  Forall (fun kx => fst kx = start_field (snd kx)) keyed.
Proof.
  intros ->. apply Forall_forall. by intros kx (x & -> & _)%list_elem_of_fmap.
Qed.

Lemma sorted_by_start (keyed : list (Z * value)) :
  Forall (fun kx => fst kx = start_field (snd kx)) keyed ->
  StronglySorted (fun a b => fst a <= fst b) keyed ->
  StronglySorted (fun x y => start_field x <= start_field y) (map snd keyed).
Proof.
  intros Hkeys Hsorted. induction Hsorted as [|kx keyed _ IH Hkx]; simpl; [constructor |].
  apply Forall_cons in Hkeys as [Hk Hkeys]. constructor; [by apply IH |].
  apply Forall_fmap. rewrite Forall_forall in Hkx, Hkeys |- *.
  intros ky Hky. simpl. rewrite <- Hk, <- (Hkeys _ Hky). by apply Hkx.
Qed.

Lemma filter_by_start (s : Z) (keyed : list (Z * value)) :
  Forall (fun kx => fst kx = start_field (snd kx)) keyed ->
  filter (fun x => start_field x = s) (map snd keyed)
  = map snd (filter (fun kx => fst kx = s) keyed).
Proof.
  induction 1 as [|kx keyed Hk _ IH]; [done |].
  cbn [map]. rewrite !filter_cons, IH, <- Hk.
  by destruct (decide (fst kx = s)).
Qed.

(** What [midi_to_note_sequence] computes, in terms of the sorted keys. *)
Lemma midi_to_note_sequence_eq (m : MidiFile) :
  midi_to_note_sequence m
  = inr (map snd (stable_sort
                    (map (fun x => (start_field x, x)) (all_note_dicts (instruments m))))).
Proof.
  unfold midi_to_note_sequence, list_sort. cbv zeta.
  by rewrite collect_notes_all, keys_of_all_note_dicts.
Qed.

(** X12: [midi_to_note_sequence] returns, for every MidiFile, a list that
    holds the notes of all instruments, each once, in non-decreasing
    order of their start. *)
Theorem midi_to_note_sequence_sorted (m : MidiFile) :
  exists sequence,
    midi_to_note_sequence m = inr sequence
    /\ sequence ≡ₚ all_note_dicts (instruments m)
    /\ StronglySorted (fun x y => start_field x <= start_field y) sequence.
Proof.
  rewrite midi_to_note_sequence_eq. eexists. split; [reflexivity |]. split.
  - rewrite stable_sort_perm, map_map. simpl. by rewrite map_id.
  - apply sorted_by_start; [| apply stable_sort_sorted].
    eapply keyed_consistent, stable_sort_perm.
Qed.

(** X13: the sort of [midi_to_note_sequence] is stable: the notes that start
    at the same time come in the order of the instruments and, within an
    instrument, of its notes. *)
Theorem midi_to_note_sequence_stable (m : MidiFile) :
  exists sequence,
    midi_to_note_sequence m = inr sequence
    /\ forall s : Z,
         filter (fun x => start_field x = s) sequence
         = filter (fun x => start_field x = s) (all_note_dicts (instruments m)).
Proof.
  rewrite midi_to_note_sequence_eq. eexists. split; [reflexivity |]. intros s.
  rewrite filter_by_start by (eapply keyed_consistent, stable_sort_perm).
  rewrite stable_sort_stable.
  rewrite <- filter_by_start by (by eapply keyed_consistent).
  by rewrite map_map, map_id.
Qed.

Lemma count_notes_all_note_dicts (insts : list (Instrument Z)) :
  count_notes insts = len (all_note_dicts insts).
Proof.
  unfold count_notes, all_note_dicts, len. rewrite py_sum_sum_of.
  induction insts as [|inst insts IH]; simpl; [done |].
  rewrite IH, length_app, length_map. unfold len. lia.
Qed.

(** X14: the note sequence of a MidiFile is as long as the [total_notes] that
    [get_midi_info] reports for it. *)
Theorem midi_to_note_sequence_total_notes (src : midi_source) (m : MidiFile) (info : dict) :
  denotes src (MT m) ->
  get_midi_info src = inr info ->
  exists sequence,
    midi_to_note_sequence m = inr sequence
    /\ info !! "total_notes" = Some (VInt (len sequence)).
Proof.
  intros Hden Hinfo. rewrite (get_midi_info_denotes _ _ Hden) in Hinfo.
  rewrite midi_to_note_sequence_eq. eexists. split; [reflexivity |].
  rewrite (get_info_miditoolkit_total_notes _ _ Hinfo), count_notes_all_note_dicts.
  unfold len. by rewrite !length_map, stable_sort_perm, length_map.
Qed.

End NoteSequenceResult.

(** ** More on [filter_midi_by_instrument] and [get_piano_midi] *)

Section FilterMore.
Context `{RT : Runtime}.


(** X7: [get_piano_midi] leaves exactly the instruments that are no drum
    tracks and whose program lies between 0 and 7, in their order. *)
Theorem get_piano_midi_keeps (hd : midi_handle) (h : heap) (m : MidiFile) :
  holds h hd m ->
  exists l h' m',
    get_piano_midi hd h = inr (l, h')
    /\ h' !! l = Some (MT m')
    /\ instruments m'
       = List.filter
           (fun inst => negb (is_drum inst) && (0 <=? program inst) && (program inst <=? 7))
           (instruments m).
Proof.
  intros Hm. unfold get_piano_midi.
  destruct (filter_midi_by_instrument_holds _ (Some [0; 1; 2; 3; 4; 5; 6; 7]) true _ _ Hm)
    as (l & h0 & _ & ->).
  eexists l, _, _. split; [reflexivity |]. split; [apply lookup_insert_eq |].
  simpl. rewrite filter_instruments_filter. apply filter_ext. intros inst.
  unfold kept. rewrite <- andb_assoc. f_equal.
  destruct (Z.leb_spec 0 (program inst)), (Z.leb_spec (program inst) 7); simpl;
    [apply bool_decide_eq_true_2 | apply bool_decide_eq_false_2 ..];
    repeat rewrite elem_of_cons; rewrite elem_of_nil; lia.
Qed.



(** X10: given a path, the function returns a reference the heap did not
    hold before, and no object that was in the heap has changed. *)
Theorem filter_midi_by_instrument_fresh (file_path : string)
    (program_numbers : option (list Z)) (exclude_drums : bool) (h : heap)
    (m : MidiFile) :
  load_midi_file file_path "miditoolkit" = inr (MT m) ->
  exists l h',
    filter_midi_by_instrument (PathArg file_path) program_numbers exclude_drums h
    = inr (l, h')
    /\ h !! l = None
    /\ forall l' o, h !! l' = Some o -> h' !! l' = Some o.
Proof.
  intros Hm.
  destruct (filter_midi_by_instrument_holds (PathArg file_path) program_numbers
              exclude_drums h m Hm) as (l & h0 & Hnew & ->).
  unfold new_object in Hnew. injection Hnew as -> ->.
  assert (h !! fresh (dom h) = None) as Hfresh
    by apply not_elem_of_dom, is_fresh.
  eexists _, _. split; [reflexivity |]. split; [done |].
  intros l' o Ho.
  assert (fresh (dom h) <> l') by congruence.
  by rewrite !lookup_insert_ne.
Qed.

End FilterMore.

(** ** The summary of a filtered file *)

Ltac fold_summary :=
  cbv zeta;
  repeat match goal with
  | |- context [set_pitch_range ?insts (<["total_notes" := _]> (append_instruments ?insts ?lit))] =>
      change (set_pitch_range insts (<["total_notes" := _]> (append_instruments insts lit)))
        with (summary_of insts lit)
  end.

Section FilteredSummary.
Context `{RT : Runtime}.

(** Replacing the instruments of a MidiFile changes its summary under
    "instruments", "total_notes" and "pitch_range" only. *)
Lemma get_info_miditoolkit_frame (m : MidiFile) (insts : list (Instrument Z)) (info : dict) :
  _get_info_miditoolkit m = inr info ->
  exists info',
    _get_info_miditoolkit (set_instruments m insts) = inr info'
    /\ forall k : string,
         k <> "instruments" -> k <> "total_notes" -> k <> "pitch_range" ->
         info' !! k = info !! k.
Proof.
  unfold _get_info_miditoolkit, set_instruments.
  cbn [ticks_per_beat max_tick tempo_changes time_signature_changes
       key_signature_changes instruments].
  fold_summary.
  set (core := summary_of (instruments m) _). set (core' := summary_of insts _).
  assert (forall k : string,
            k <> "instruments" -> k <> "total_notes" -> k <> "pitch_range" ->
            core' !! k = core !! k) as Hcore.
  { intros k ? ? ?. unfold core, core'. by rewrite !lookup_summary_of_other. }
  clearbody core core'.
  destruct (negb (max_tick m =? 0)); [| intros [= <-]; eauto].
  destruct (tempo_changes m) as [|tc tcs]; [intros [= <-]; eauto |].
  intros (beats & -> & [= <-])%bind_inr. simpl.
  eexists. split; [reflexivity |]. intros k ? ? ?.
  destruct (decide (k = "duration_ticks")) as [-> | ?];
    [by rewrite !lookup_insert_eq |].
  rewrite !(lookup_insert_ne _ "duration_ticks") by done.
  destruct (decide (k = "duration_seconds")) as [-> | ?];
    [by rewrite !lookup_insert_eq |].
  rewrite !lookup_insert_ne by done. by apply Hcore.
Qed.

Lemma count_notes_filter_le {T} (f : Instrument T -> bool) (insts : list (Instrument T)) :
  count_notes (List.filter f insts) <= count_notes insts.
Proof.
  unfold count_notes. rewrite !py_sum_sum_of.
  induction insts as [|inst insts IH]; simpl; [lia |].
  destruct (f inst); simpl; unfold len in *; lia.
Qed.

(** X11: after [filter_midi_by_instrument] the summary of the object counts
    the notes of the instruments that are left, and reports the duration,
    the ticks and the tempo changes of the file as it was loaded: they
    are not computed again. *)
Theorem filter_midi_by_instrument_then_info (l : loc)
    (program_numbers : option (list Z)) (exclude_drums : bool) (h : heap)
    (m : MidiFile) (info : dict) :
  h !! l = Some (MT m) ->
  get_midi_info (Given (MT m)) = inr info ->
  exists h' m' info' (n n' : Z),
    filter_midi_by_instrument (ObjArg l) program_numbers exclude_drums h = inr (l, h')
    /\ h' !! l = Some (MT m')
    /\ get_midi_info (Given (MT m')) = inr info'
    /\ info !! "total_notes" = Some (VInt n)
    /\ info' !! "total_notes" = Some (VInt n')
    /\ n' <= n
    /\ info' !! "duration_seconds" = info !! "duration_seconds"
    /\ info' !! "duration_ticks" = info !! "duration_ticks"
    /\ info' !! "tempo_changes" = info !! "tempo_changes".
Proof.
  intros Hm Hinfo.
  destruct (filter_midi_by_instrument_holds (ObjArg l) program_numbers exclude_drums h m Hm)
    as (l0 & h0 & [-> ->] & Hrun).
  change (get_midi_info (Given (MT m))) with (_get_info_miditoolkit m) in Hinfo.
  destruct (get_info_miditoolkit_frame m
              (filter_instruments program_numbers exclude_drums (instruments m)) info Hinfo)
    as (info' & Hinfo' & Hframe).
  eexists _, _, info', _, _. split; [exact Hrun |].
  split; [apply lookup_insert_eq |].
  split; [exact Hinfo' |].
  split; [exact (get_info_miditoolkit_total_notes _ _ Hinfo) |].
  split; [exact (get_info_miditoolkit_total_notes _ _ Hinfo') |].
  split.
  { cbn [set_instruments instruments]. rewrite filter_instruments_filter.
    apply count_notes_filter_le. }
  repeat split; by apply Hframe.
Qed.

End FilteredSummary.

(** ** When a file is valid, and when a summary has a duration *)

Section Accepted.
Context `{RT : Runtime}.
Implicit Types (src : midi_source) (info : dict) (min_notes : Z)
  (max_duration min_duration : option float) (require_tempo : bool).

Lemma get_midi_info_tempo_changes src info :
  get_midi_info src = inr info ->
  info !! "tempo_changes" = None
  \/ exists k : Z, info !! "tempo_changes" = Some (VInt k).
Proof.
  intros [(m & _ & Hm) | (p & _ & Hp)]%get_midi_info_inr.
  - apply get_info_miditoolkit_inr in Hm as (_ & _ & ? & _). eauto.
  - destruct (get_info_pretty_midi_inr p) as (info' & Hp' & _ & _ & ? & _).
    rewrite Hp in Hp'. injection Hp' as <-. eauto.
Qed.

(** X5: [validate_midi_file] answers [(True, "Valid")] exactly when there
    are at least [min_notes] notes, the duration, if the summary has one,
    is neither beyond a maximum that is given and not zero nor below a
    minimum that is given and not zero, and, under [require_tempo], the
    summary records a number of tempo changes that is not zero.  [True]
    never comes with another reason, nor "Valid" with [False]. *)
Theorem validate_midi_file_valid src info (n : Z)
    min_notes max_duration min_duration require_tempo :
  get_midi_info src = inr info ->
  info !! "total_notes" = Some (VInt n) ->
  (validate_midi_file src min_notes max_duration min_duration require_tempo
   = inr (true, "Valid")
   <-> min_notes <= n
       /\ (forall duration,
             info !! "duration_seconds" = Some (VFloat duration) ->
             ~ too_long max_duration duration /\ ~ too_short min_duration duration)
       /\ (require_tempo = true ->
           exists k : Z, info !! "tempo_changes" = Some (VInt k) /\ k <> 0))
  /\ (forall ok reason,
        validate_midi_file src min_notes max_duration min_duration require_tempo
        = inr (ok, reason) ->
        ok = true <-> reason = "Valid").
Proof.
  intros Hinfo Hn.
  rewrite (validate_midi_file_checks _ _ _ _ _ _ _ Hinfo Hn). cbv zeta.
  assert ((if require_tempo && eq_zero (default (VInt 0) (info !! "tempo_changes"))
           then inr (false, "No tempo changes found")
           else inr (true, "Valid")) = (inr (true, "Valid") : result (bool * string))
          <-> (require_tempo = true ->
               exists k : Z, info !! "tempo_changes" = Some (VInt k) /\ k <> 0)) as Htempo.
  { destruct require_tempo; simpl; [| by split; [intros _ [=] | ]].
    destruct (get_midi_info_tempo_changes _ _ Hinfo) as [-> | [k ->]]; simpl.
    - split; [done |]. intros Hk. by destruct (Hk eq_refl) as (? & [=] & _).
    - destruct (Z.eqb_spec k 0) as [-> | Hk].
      + split; [done |]. intros Hk. by destruct (Hk eq_refl) as (? & [= <-] & ?).
      + split; [eauto | done]. }
  split.
  - destruct (Z.ltb_spec n min_notes) as [Hlt | Hge].
    { split; [done | lia]. }
    destruct (get_midi_info_duration _ _ Hinfo) as [Hdur | [duration Hdur]];
      rewrite Hdur.
    { rewrite Htempo. split; [by intros ? | tauto]. }
    destruct (exceeds max_duration duration) eqn:Hmax.
    { split; [done |]. intros (_ & Hpass & _).
      apply exceeds_too_long in Hmax. by destruct (Hpass _ eq_refl). }
    destruct (falls_short min_duration duration) eqn:Hmin.
    { split; [done |]. intros (_ & Hpass & _).
      apply falls_short_too_short in Hmin. by destruct (Hpass _ eq_refl). }
    apply exceeds_not_too_long in Hmax. apply falls_short_not_too_short in Hmin.
    rewrite Htempo. split.
    + intros ?. split; [done |]. split; [| done]. by intros ? [= <-].
    + tauto.
  - intros ok reason.
    destruct (n <? min_notes); [by intros [= <- <-] |].
    destruct (info !! "duration_seconds") as [[]|];
      repeat match goal with
             | |- context [if ?b then _ else _] => destruct b
             end; by intros [= <- <-].
Qed.

(** X6: a pretty_midi object never passes [require_tempo]: its summary has
    no "tempo_changes", and the missing entry counts as zero. *)
Theorem validate_midi_file_pretty_midi_tempo (p : PrettyMIDI)
    min_notes max_duration min_duration :
  exists reason,
    validate_midi_file (Given (PM p)) min_notes max_duration min_duration true
    = inr (false, reason).
Proof.
  destruct (get_info_pretty_midi_inr p) as (info & Hp & (? & _ & _ & Hn) & _ & Htempo & Hdur).
  assert (get_midi_info (Given (PM p)) = inr info) as Hinfo by exact Hp.
  rewrite (validate_midi_file_checks _ _ _ _ _ _ _ Hinfo Hn), Htempo, Hdur. simpl.
  repeat match goal with
         | |- context [if ?b then _ else _] => destruct b
         end; by eexists.
Qed.


(** X4: the summary of a miditoolkit object has a duration exactly when the
    object has ticks and a tempo event; "duration_ticks" comes with it
    and holds [max_tick], and "ticks_per_beat" is always there. *)
Theorem get_midi_info_duration_present src (m : MidiFile) info :
  denotes src (MT m) ->
  get_midi_info src = inr info ->
  (is_Some (info !! "duration_seconds") <-> max_tick m <> 0 /\ tempo_changes m <> [])
  /\ (is_Some (info !! "duration_seconds") ->
      info !! "duration_ticks" = Some (VInt (max_tick m)))
  /\ (info !! "duration_seconds" = None -> info !! "duration_ticks" = None)
  /\ info !! "ticks_per_beat" = Some (VInt (ticks_per_beat m)).
Proof.
  intros Hden. rewrite (get_midi_info_denotes _ _ Hden).
  unfold _get_info_miditoolkit. fold_summary.
  set (core := summary_of _ _).
  assert (core !! "duration_seconds" = None
          /\ core !! "duration_ticks" = None
          /\ core !! "ticks_per_beat" = Some (VInt (ticks_per_beat m)))
    as (Hdur & Hticks & Hbeat)
    by (unfold core; by rewrite !lookup_summary_of_other).
  clearbody core.
  destruct (Z.eqb_spec (max_tick m) 0) as [Hzero | Hnonzero]; simpl.
  { intros [= <-]. rewrite Hdur.
    repeat split; try done; try tauto; by intros [? [=]]. }
  destruct (tempo_changes m) as [|tc tcs].
  { intros [= <-]. rewrite Hdur.
    repeat split; try done; try tauto; by intros [? [=]]. }
  intros (beats & _ & [= <-])%bind_inr.
  rewrite lookup_insert_eq, (lookup_insert_ne _ "duration_ticks") by done.
  rewrite lookup_insert_eq, !lookup_insert_ne by done.
  repeat split; try done; by eexists.
Qed.

(** X3: [get_midi_info] returns a summary for every pretty_midi object,
    and for a miditoolkit object exactly when the object has no tick or
    no tempo event or the division of its ticks by its ticks per beat
    does not raise; for an object of another type it never does. *)
Theorem get_midi_info_returns_exactly src (o : pyobj) :
  denotes src o ->
  (exists info, get_midi_info src = inr info)
  <-> match o with
      | MT m =>
          max_tick m = 0 \/ tempo_changes m = []
          \/ (exists beats, py_truediv (max_tick m) (ticks_per_beat m) = inr beats)
      | PM _ => True
      | Foreign _ _ => False
      end.
Proof.
  intros Hden. split; [| by apply get_midi_info_returns].
  rewrite (get_midi_info_denotes _ _ Hden).
  destruct o as [m | p | ? ?]; [| done | by intros [? [=]]].
  unfold _get_info_miditoolkit. cbv zeta. intros [info Hinfo].
  destruct (Z.eqb_spec (max_tick m) 0) as [? | _]; [by left |].
  destruct (tempo_changes m) as [|tc tcs]; [by right; left |].
  simpl in Hinfo. apply bind_inr in Hinfo as (beats & Hbeats & _). eauto.
Qed.

End Accepted.

(** ** [print_midi_summary] *)

Section PrintSummary.
Context `{RT : Runtime} `{CO : Console}.



Lemma cbind_skip {B} (k : unit -> console B) (out : list string) :
  cbind skip k out = k tt out.
Proof. reflexivity. Qed.



(** X15: [print_midi_summary] does not catch what [get_midi_info] raises: the
    exception leaves the function before a line is printed.  Handed an
    object instead of a path it raises [TypeError], again before a line
    is printed, even when [get_midi_info] accepts the object. *)
Theorem print_midi_summary_raises (src : midi_source) (out : list string) :
  (forall e, get_midi_info src = inl e ->
             print_midi_summary src out = (out, inl e))
  /\ (forall o info, src = Given o -> get_midi_info src = inr info ->
        print_midi_summary src out = (out, inl (Exn TypeError (path_type_error o)))).
Proof.
  split.
  - intros e He. unfold print_midi_summary. by rewrite He.
  - intros o info -> Hinfo. unfold print_midi_summary. by rewrite Hinfo.
Qed.


End PrintSummary.

(** ** The further statements on the sample environment *)

(** The summary of [song.mid] in the sample environment, without
    evaluating it. *)
Ltac song_info src info Hinfo :=
  destruct (@get_midi_info_returns Demo.runtime src (MT Demo.song)) as [info Hinfo];
  [reflexivity | right; right; eexists; vm_compute; reflexivity |].

Lemma get_midi_info_returns_exactly_witness :
  (exists info, @get_midi_info Demo.runtime (Given (MT Demo.stalled)) = inr info)
  <-> (max_tick Demo.stalled = 0 \/ tempo_changes Demo.stalled = []
       \/ exists beats,
            @py_truediv Demo.runtime (max_tick Demo.stalled) (ticks_per_beat Demo.stalled)
            = inr beats).
Proof.
  apply (@get_midi_info_returns_exactly Demo.runtime (Given (MT Demo.stalled))
           (MT Demo.stalled)).
  reflexivity.
Defined.

Lemma midi_to_note_sequence_total_notes_witness :
  match @get_midi_info Demo.runtime (AtPath "song.mid") with
  | inr info =>
      exists sequence,
        midi_to_note_sequence Demo.song = inr sequence
        /\ info !! "total_notes" = Some (VInt (len sequence))
  | inl _ => False
  end.
Proof.
  song_info (AtPath "song.mid") info Hinfo. rewrite Hinfo.
  apply (@midi_to_note_sequence_total_notes Demo.runtime (AtPath "song.mid") Demo.song info);
    [reflexivity | exact Hinfo].
Defined.

Lemma get_piano_midi_keeps_witness :
  exists l h' m',
    @get_piano_midi Demo.runtime (ObjArg 1%positive) Demo.studio = inr (l, h')
    /\ h' !! l = Some (MT m')
    /\ instruments m'
       = List.filter
           (fun inst => negb (is_drum inst) && (0 <=? program inst) && (program inst <=? 7))
           (instruments Demo.song).
Proof.
  apply (@get_piano_midi_keeps Demo.runtime (ObjArg 1%positive) Demo.studio Demo.song).
  reflexivity.
Defined.



Lemma filter_midi_by_instrument_fresh_witness :
  exists l h',
    @filter_midi_by_instrument Demo.runtime (PathArg "song.mid") (Some [0]) true Demo.studio
    = inr (l, h')
    /\ Demo.studio !! l = None
    /\ forall l' o, Demo.studio !! l' = Some o -> h' !! l' = Some o.
Proof.
  apply (@filter_midi_by_instrument_fresh Demo.runtime "song.mid" (Some [0]) true
           Demo.studio Demo.song).
  reflexivity.
Defined.

Lemma filter_midi_by_instrument_then_info_witness :
  match @get_midi_info Demo.runtime (Given (MT Demo.song)) with
  | inr info =>
      exists h' m' info' (n n' : Z),
        @filter_midi_by_instrument Demo.runtime (ObjArg 1%positive) (Some [0]) true
          Demo.studio = inr (1%positive, h')
        /\ h' !! 1%positive = Some (MT m')
        /\ @get_midi_info Demo.runtime (Given (MT m')) = inr info'
        /\ info !! "total_notes" = Some (VInt n)
        /\ info' !! "total_notes" = Some (VInt n')
        /\ n' <= n
        /\ info' !! "duration_seconds" = info !! "duration_seconds"
        /\ info' !! "duration_ticks" = info !! "duration_ticks"
        /\ info' !! "tempo_changes" = info !! "tempo_changes"
  | inl _ => False
  end.
Proof.
  song_info (Given (MT Demo.song)) info Hinfo. rewrite Hinfo.
  apply (@filter_midi_by_instrument_then_info Demo.runtime 1%positive (Some [0]) true
           Demo.studio Demo.song info); [reflexivity | exact Hinfo].
Defined.

Lemma validate_midi_file_valid_witness :
  @validate_midi_file Demo.runtime (AtPath "song.mid") 10 (Some 2%float) None true
  = inr (true, "Valid").
Proof.
  song_info (AtPath "song.mid") info Hinfo.
  assert (@_get_info_miditoolkit Demo.runtime Demo.song = inr info) as Hsong
    by exact Hinfo.
  assert (info !! "total_notes" = Some (VInt 17)) as Hn
    by exact (@get_info_miditoolkit_total_notes Demo.runtime _ _ Hsong).
  assert (info !! "duration_seconds" = Some (VFloat 1%float)) as Hdur.
  { refine (proj1 (@get_info_miditoolkit_duration Demo.runtime Demo.song info 2%float
                     _ _ _ Hsong)); [discriminate | discriminate |].
    vm_compute. reflexivity. }
  assert (info !! "tempo_changes" = Some (VInt 1)) as Htempo
    by exact (proj1 (proj2 (proj2 (@get_info_miditoolkit_inr Demo.runtime _ _ Hsong)))).
  apply (proj1 (@validate_midi_file_valid Demo.runtime (AtPath "song.mid") info 17
                  10 (Some 2%float) None true Hinfo Hn)).
  split; [lia |]. split.
  - intros duration Hsome. rewrite Hdur in Hsome. injection Hsome as <-.
    split.
    + intros (bound & [= <-] & _ & Hlt). vm_compute in Hlt. discriminate.
    + intros (bound & [=] & _).
  - intros _. exists 1. split; [exact Htempo | lia].
Defined.

Lemma get_midi_info_duration_present_witness :
  match @get_midi_info Demo.runtime (AtPath "song.mid") with
  | inr info =>
      (is_Some (info !! "duration_seconds")
       <-> max_tick Demo.song <> 0 /\ tempo_changes Demo.song <> [])
      /\ (is_Some (info !! "duration_seconds") ->
          info !! "duration_ticks" = Some (VInt (max_tick Demo.song)))
      /\ (info !! "duration_seconds" = None -> info !! "duration_ticks" = None)
      /\ info !! "ticks_per_beat" = Some (VInt (ticks_per_beat Demo.song))
  | inl _ => False
  end.
Proof.
  song_info (AtPath "song.mid") info Hinfo. rewrite Hinfo.
  apply (@get_midi_info_duration_present Demo.runtime (AtPath "song.mid") Demo.song info);
    [reflexivity | exact Hinfo].
Defined.

Lemma print_midi_summary_raises_witness :
  @print_midi_summary Demo.runtime Demo.terminal (AtPath "nowhere.mid") []
  = ([], inl (Exn FileNotFoundError "MIDI file not found: nowhere.mid")).
Proof.
  apply (proj1 (@print_midi_summary_raises Demo.runtime Demo.terminal
                  (AtPath "nowhere.mid") [])).
  vm_compute. reflexivity.
Defined.


(** What [print_midi_summary] prints for [song.mid]. *)
Example print_song :
  @print_midi_summary Demo.runtime Demo.terminal (AtPath "song.mid") []
  = ([ nl +:+ "MIDI File: song.mid";
       "============================================================";
       "Duration: 1.00s (0.02 minutes)";
       "Total ticks: 960";
       "Ticks per beat: 480";
       "Total notes: 17";
       "Pitch range: 36 to 84 (span: 48)";
       "Tempo changes: 1";
       "Time signature changes: 1";
       "Key signature changes: 0";
       nl +:+ "Instruments (3):";
       "  1. Program 0: Piano (12 notes)";
       "  2. Program 0: Drums [DRUM] (3 notes)";
       "  3. Program 40: Violin (2 notes)" ],
     inr tt).
Proof. vm_compute. reflexivity. Qed.

(** The note sequence of [duet]: by start, and violin before piano where
    both start at 0. *)
Example note_sequence_duet :
  match midi_to_note_sequence Demo.duet with
  | inr sequence =>
      map (fun x => (start_field x, num_notes_field x,
                     match x with
                     | VDict d => d !! "pitch"
                     | _ => None
                     end)) sequence
  | inl _ => []
  end = [ (0, 0, Some (VInt 79)); (0, 0, Some (VInt 48));
          (240, 0, Some (VInt 60)); (480, 0, Some (VInt 76)) ].
Proof. vm_compute. reflexivity. Qed.

(** The note sequence of [song]: seventeen notes, all starting at 0, in
    the order of the instruments. *)
Example note_sequence_song :
  match midi_to_note_sequence Demo.song with
  | inr sequence => (len sequence, sequence !! 12%nat)
  | inl _ => (0, None)
  end = (17, Some (note_dict Demo.drums (Demo.note 36))).
Proof. vm_compute. reflexivity. Qed.
